(** * scripts/transcribe.py: the transcription pipeline

    A shallow embedding of [transcribe_video] and of the script's
    [__main__] block, with the parts of the Python runtime they call
    ([str.strip], [str.join], [print], [str] of an exception, [repr] of a
    string, [json.dumps], [tempfile], [subprocess.run], [os.unlink]).

    A Python [str] is a sequence of Unicode code points; the process state
    (files, standard streams, calls made to the outside) is threaded
    explicitly; a raised exception is an outcome of its own. *)

From Stdlib Require Import ZArith NArith List Ascii String Lia Bool.
From Stdlib Require Import DecimalString SpecFloat.
From stdpp Require Import base decidable countable gmap list.
Import ListNotations.

Local Open Scope N_scope.

(** ** Python strings *)

(** A [str]: the list of its code points. *)
Definition pystr : Type := list N.

(** A [bytes] object (the captured output of a child process). *)
Definition pybytes : Type := list Byte.byte.

(** An ASCII literal of the source, as a [str]. *)
Definition lit (s : string) : pystr :=
  map N_of_ascii (list_ascii_of_string s).

Notation "'py' s" := (lit s%string) (at level 5, s at level 0, only parsing).

(** [str.isspace] on one code point: the characters CPython's
    [_PyUnicode_IsWhitespace] accepts (bidirectional type WS, B or S, or
    category Zs). *)
Definition isspace (c : N) : bool :=
  ((0x09 <=? c) && (c <=? 0x0D)) || ((0x1C <=? c) && (c <=? 0x20))
  || (c =? 0x85) || (c =? 0xA0) || (c =? 0x1680)
  || ((0x2000 <=? c) && (c <=? 0x200A))
  || (c =? 0x2028) || (c =? 0x2029) || (c =? 0x202F) || (c =? 0x205F)
  || (c =? 0x3000).

(** [s.lstrip()]: drop the leading whitespace. *)
Fixpoint lstrip (s : pystr) : pystr :=
  match s with
  | c :: s' => if isspace c then lstrip s' else s
  | [] => []
  end.

(** [s.rstrip()]: drop the trailing whitespace. *)
Definition rstrip (s : pystr) : pystr := reverse (lstrip (reverse s)).

(** [s.strip()] with no argument. *)
Definition strip (s : pystr) : pystr := rstrip (lstrip s).

(** [sep.join(parts)]. *)
Fixpoint join (sep : pystr) (parts : list pystr) : pystr :=
  match parts with
  | [] => []
  | [p] => p
  | p :: ps => p ++ sep ++ join sep ps
  end.

(** ** Numbers as text *)

(** The decimal digits of [n], most significant first ([%d] of a
    non-negative integer). *)
Definition decimal (n : N) : pystr :=
  lit (DecimalString.NilZero.string_of_uint (N.to_uint n)).

(** [%d] of an integer. *)
Definition format_d (z : Z) : pystr :=
  match z with
  | Zneg p => py "-" ++ decimal (Npos p)
  | _ => decimal (Z.to_N z)
  end.

(** One lower-case hexadecimal digit. *)
Definition hexdigit (d : N) : N :=
  if d <? 10 then 0x30 + d else 0x57 + d.

(** The [k] low hexadecimal digits of [n], zero padded: [{:04x}] for
    [k = 4] and [n < 0x10000]. *)
Fixpoint hex (k : nat) (n : N) : pystr :=
  match k with
  | O => []
  | S k' => hex k' (N.shiftr n 4) ++ [hexdigit (N.land n 0xF)]
  end.

(** ** The platform: interpreter tables and the outside world *)

(** A Python [float] is an IEEE 754 binary64 value. *)
Definition pyfloat : Type := SpecFloat.spec_float.

(** One segment yielded by the recognition step; only [.text] is read. *)
Record Segment := { text : pystr }.

(** The info record returned beside the segments. *)
Record TranscriptionInfo := {
  language : pystr;
  language_probability : pyfloat;
  duration : pyfloat
}.

(** Exceptions ([Exception] subclasses) the pipeline can meet. *)
Inductive exn :=
| CalledProcessError (returncode : Z) (cmd : list pystr)
                     (output stderr : option pybytes)
| OSError (errno : Z) (strerror : pystr) (filename : option pystr)
| Exception (message : pystr).

(** The segments object: a generator, consumed once. Each [next] yields a
    segment, ends the iteration, or raises. *)
Inductive generator :=
| StopIteration
| Yield (s : Segment) (rest : generator)
| Throw (e : exn).

(** What the operating system answers when asked to start a child. *)
Inductive child :=
| NotStarted (errno : Z) (strerror : pystr)
| Exited (returncode : Z) (out err : pybytes).

(** The model object: what its constructor was given. *)
Record WhisperModel := {
  model_size_or_path : pystr;
  device : pystr;
  compute_type : pystr
}.

(** Everything the script does not define itself. The set of paths is the
    file system before the call; each collaborator may change it. *)
Record env := {
  (** [str.isprintable] above U+007F (Unicode database). *)
  isprintable : N -> bool;
  (** The name of a signal number ([signal.Signals]), when it has one. *)
  signal_name : Z -> option pystr;
  (** [float.__repr__] of a finite float. *)
  float_repr : pyfloat -> pystr;
  (** The name [tempfile] picks for a new file with the suffix, or the
      error raised while creating it. *)
  mkstemp : pystr -> gset pystr -> exn + pystr;
  (** Starting a child with an argument vector and waiting for it. *)
  spawn : list pystr -> gset pystr -> child * gset pystr;
  (** Loading the weights for [WhisperModel(size, device=...,
      compute_type=...)]: the error raised, if any. *)
  load_model : pystr -> pystr -> pystr -> gset pystr ->
               option exn * gset pystr;
  (** [model.transcribe(audio, beam_size=...)]. *)
  run_transcribe : WhisperModel -> pystr -> Z -> gset pystr ->
                   (exn + generator * TranscriptionInfo) * gset pystr
}.

(** ** [repr] and [str] *)

Section Text.
Variable E : env.

(** One character of [repr(s)] inside the chosen quote. *)
Definition repr_char (quote c : N) : pystr :=
  if (c =? quote) || (c =? 0x5C) then [0x5C; c]
  else if c =? 0x09 then py "\t"
  else if c =? 0x0A then py "\n"
  else if c =? 0x0D then py "\r"
  else if (c <? 0x20) || (c =? 0x7F) then py "\x" ++ hex 2 c
  else if c <? 0x7F then [c]
  else if isprintable E c then [c]
  else if c <=? 0xFF then py "\x" ++ hex 2 c
  else if c <=? 0xFFFF then py "\u" ++ hex 4 c
  else py "\U" ++ hex 8 c.

(** [repr(s)] of a [str]: single quotes, unless the string has a single
    quote and no double quote. *)
Definition repr (s : pystr) : pystr :=
  let quote :=
    if existsb (N.eqb 0x27) s && negb (existsb (N.eqb 0x22) s)
    then 0x22 else 0x27 in
  [quote] ++ concat (map (repr_char quote) s) ++ [quote].

(** [str(l)] of a list of strings. *)
Definition str_list (l : list pystr) : pystr :=
  py "[" ++ join (py ", ") (map repr l) ++ py "]".

(** [str(e)]: [CalledProcessError.__str__], [OSError.__str__], and the
    message of any other exception. *)
Definition str_exn (e : exn) : pystr :=
  match e with
  | CalledProcessError returncode cmd _ _ =>
      if (returncode <? 0)%Z then
        match signal_name E (- returncode)%Z with
        | Some name =>
            py "Command '" ++ str_list cmd ++ py "' died with <Signals."
            ++ name ++ py ": " ++ format_d (- returncode) ++ py ">."
        | None =>
            py "Command '" ++ str_list cmd
            ++ py "' died with unknown signal "
            ++ format_d (- returncode) ++ py "."
        end
      else
        py "Command '" ++ str_list cmd
        ++ py "' returned non-zero exit status "
        ++ format_d returncode ++ py "."
  | OSError errno strerror (Some filename) =>
      py "[Errno " ++ format_d errno ++ py "] " ++ strerror ++ py ": "
      ++ repr filename
  | OSError errno strerror None =>
      py "[Errno " ++ format_d errno ++ py "] " ++ strerror
  | Exception message => message
  end.
End Text.

(** ** [json.dumps] *)

(** The replacement of one character by [py_encode_basestring_ascii]
    ([ensure_ascii=True], the default). *)
Definition json_escape (c : N) : pystr :=
  if c =? 0x22 then [0x5C; 0x22]
  else if c =? 0x5C then [0x5C; 0x5C]
  else if c =? 0x0A then [0x5C; 0x6E]
  else if c =? 0x0D then [0x5C; 0x72]
  else if c =? 0x09 then [0x5C; 0x74]
  else if c =? 0x08 then [0x5C; 0x62]
  else if c =? 0x0C then [0x5C; 0x66]
  else if (0x20 <=? c) && (c <=? 0x7E) then [c]
  else if c <? 0x10000 then [0x5C; 0x75] ++ hex 4 c
  else
    let n := c - 0x10000 in
    let s1 := N.lor 0xD800 (N.land (N.shiftr n 10) 0x3FF) in
    let s2 := N.lor 0xDC00 (N.land n 0x3FF) in
    [0x5C; 0x75] ++ hex 4 s1 ++ [0x5C; 0x75] ++ hex 4 s2.

(** A string as a JSON string literal. *)
Definition py_encode_basestring_ascii (s : pystr) : pystr :=
  [0x22] ++ concat (map json_escape s) ++ [0x22].

(** The values the result dictionary holds. *)
Inductive pyvalue :=
| VStr (s : pystr)
| VFloat (f : pyfloat).

(** A [dict] with string keys, in insertion order. *)
Definition pydict : Type := list (pystr * pyvalue).

Section Json.
Variable E : env.

(** [floatstr] of the encoder ([allow_nan=True], the default). *)
Definition floatstr (f : pyfloat) : pystr :=
  match f with
  | S754_nan => py "NaN"
  | S754_infinity false => py "Infinity"
  | S754_infinity true => py "-Infinity"
  | _ => float_repr E f
  end.

Definition json_value (v : pyvalue) : pystr :=
  match v with
  | VStr s => py_encode_basestring_ascii s
  | VFloat f => floatstr f
  end.

Definition json_item (kv : pystr * pyvalue) : pystr :=
  py_encode_basestring_ascii (fst kv) ++ py ": " ++ json_value (snd kv).

(** [json.dumps(d)] with the default separators. *)
Definition json_dumps (d : pydict) : pystr :=
  py "{" ++ join (py ", ") (map json_item d) ++ py "}".
End Json.

(** ** The process state and the monad of statements *)

(** A call that leaves the interpreter. *)
Inductive call :=
| call_NamedTemporaryFile (suffix : pystr) (delete : bool)
| call_subprocess_run (args : list pystr) (check capture_output : bool)
| call_WhisperModel (size device compute_type : pystr)
| call_transcribe (audio : pystr) (beam_size : Z)
| call_unlink (path : pystr).

(** The state of the process: the files that exist, what was written to
    the two standard streams, and the calls made so far, oldest first. *)
Record world := {
  files : gset pystr;
  stdout : pystr;
  stderr : pystr;
  calls : list call
}.

Definition set_files (fs : gset pystr) (w : world) : world :=
  {| files := fs; stdout := stdout w; stderr := stderr w; calls := calls w |}.

Definition log (c : call) (w : world) : world :=
  {| files := files w; stdout := stdout w; stderr := stderr w;
     calls := calls w ++ [c] |}.

Definition write_stdout (s : pystr) (w : world) : world :=
  {| files := files w; stdout := stdout w ++ s; stderr := stderr w;
     calls := calls w |}.

Definition write_stderr (s : pystr) (w : world) : world :=
  {| files := files w; stdout := stdout w; stderr := stderr w ++ s;
     calls := calls w |}.

(** How a statement ends. *)
Inductive outcome (A : Type) :=
| Ok (a : A)
| Raised (e : exn).
Arguments Ok {A} a.
Arguments Raised {A} e.

(** A statement: from the state before to its outcome and the state
    after. *)
Definition M (A : Type) : Type := world -> outcome A * world.

Definition ret {A} (a : A) : M A := fun w => (Ok a, w).

Definition bind {A B} (m : M A) (k : A -> M B) : M B :=
  fun w =>
    match m w with
    | (Ok a, w') => k a w'
    | (Raised e, w') => (Raised e, w')
    end.

#[global] Instance M_ret : MRet M := @ret.
#[global] Instance M_bind : MBind M := fun A B k m => bind m k.

(** [try: body finally: cleanup]. The cleanup runs on every exit of the
    body; an exception of the cleanup replaces the body's outcome. *)
Definition try_finally {A} (body : M A) (cleanup : M unit) : M A :=
  fun w =>
    let (r, w1) := body w in
    match cleanup w1 with
    | (Ok _, w2) => (r, w2)
    | (Raised e, w2) => (Raised e, w2)
    end.

(** The bytes of a child written straight to an inherited stream. *)
Definition bytes_text (b : pybytes) : pystr := map Byte.to_N b.

(** [subprocess.CompletedProcess]. *)
Record CompletedProcess := {
  cp_args : list pystr;
  cp_returncode : Z;
  cp_stdout : option pybytes;
  cp_stderr : option pybytes
}.

Section Runtime.
Variable E : env.

(** [with tempfile.NamedTemporaryFile(suffix=..., delete=...) as f: body]
    where the body reads [f.name]. The file is created, the body runs,
    and leaving the block closes the file, which removes it only when
    [delete] is set. *)
Definition with_NamedTemporaryFile {A} (suffix : pystr) (delete : bool)
    (body : pystr -> M A) : M A :=
  fun w =>
    let w0 := log (call_NamedTemporaryFile suffix delete) w in
    match mkstemp E suffix (files w0) with
    | inl e => (Raised e, w0)
    | inr name =>
        let (r, w1) := body name (set_files ({[name]} ∪ files w0) w0) in
        (r, if delete then set_files (files w1 ∖ {[name]}) w1 else w1)
    end.

(** [subprocess.run(args, check=..., capture_output=...)]. A child that
    cannot be started raises the [OSError] of the failed exec, with the
    executable as file name; without [capture_output] the child writes
    to the streams of this process. *)
Definition subprocess_run (args : list pystr) (check capture_output : bool)
    : M CompletedProcess :=
  fun w =>
    let w0 := log (call_subprocess_run args check capture_output) w in
    let (c, fs) := spawn E args (files w0) in
    let w1 := set_files fs w0 in
    match c with
    | NotStarted errno strerror =>
        (Raised (OSError errno strerror (Some (hd [] args))), w1)
    | Exited returncode out err =>
        let w2 :=
          if capture_output then w1
          else write_stderr (bytes_text err)
                 (write_stdout (bytes_text out) w1) in
        let captured b := if capture_output then Some b else None in
        if check && negb (returncode =? 0)%Z then
          (Raised (CalledProcessError returncode args
                     (captured out) (captured err)), w2)
        else
          (Ok {| cp_args := args; cp_returncode := returncode;
                 cp_stdout := captured out; cp_stderr := captured err |},
           w2)
    end.

(** [WhisperModel(size, device=device, compute_type=compute_type)]. *)
Definition new_WhisperModel (size device_ compute_type_ : pystr)
    : M WhisperModel :=
  fun w =>
    let w0 := log (call_WhisperModel size device_ compute_type_) w in
    let (r, fs) := load_model E size device_ compute_type_ (files w0) in
    let w1 := set_files fs w0 in
    match r with
    | Some e => (Raised e, w1)
    | None =>
        (Ok {| model_size_or_path := size; device := device_;
               compute_type := compute_type_ |}, w1)
    end.

(** [model.transcribe(audio, beam_size=beam_size)]. *)
Definition transcribe (model : WhisperModel) (audio : pystr)
    (beam_size : Z) : M (generator * TranscriptionInfo) :=
  fun w =>
    let w0 := log (call_transcribe audio beam_size) w in
    let (r, fs) := run_transcribe E model audio beam_size (files w0) in
    let w1 := set_files fs w0 in
    match r with
    | inl e => (Raised e, w1)
    | inr si => (Ok si, w1)
    end.

(** [os.path.exists(path)]. *)
Definition os_path_exists (path : pystr) : M bool :=
  fun w => (Ok (bool_decide (path ∈ files w)), w).

(** [os.unlink(path)]; a missing file raises [FileNotFoundError]. *)
Definition os_unlink (path : pystr) : M unit :=
  fun w =>
    let w0 := log (call_unlink path) w in
    if bool_decide (path ∈ files w0) then
      (Ok tt, set_files (files w0 ∖ {[path]}) w0)
    else
      (Raised (OSError 2 (py "No such file or directory") (Some path)), w0).

(** [print(text)] and [print(text, file=sys.stderr)]. *)
Definition print (text : pystr) : M unit :=
  fun w => (Ok tt, write_stdout (text ++ [0x0A]) w).

Definition print_stderr (text : pystr) : M unit :=
  fun w => (Ok tt, write_stderr (text ++ [0x0A]) w).
End Runtime.

(** ** The script *)

Section Script.
Variable E : env.

(** The [for] loop over the segments: each text is stripped and
    appended to [transcript_parts]. *)
Fixpoint for_segments (segments : generator) (transcript_parts : list pystr)
    : outcome (list pystr) :=
  match segments with
  | StopIteration => Ok transcript_parts
  | Yield segment rest =>
      for_segments rest (transcript_parts ++ [strip (text segment)])
  | Throw e => Raised e
  end.

(** The command line handed to [subprocess.run]. *)
Definition ffmpeg_cmd (video_path audio_path : pystr) : list pystr :=
  [ py "ffmpeg";
    py "-i"; video_path;
    py "-vn";
    py "-acodec"; py "pcm_s16le";
    py "-ar"; py "16000";
    py "-ac"; py "1";
    py "-y";
    audio_path ].

(** The body of the [try] statement of [transcribe_video]. *)
Definition try_block (video_path model_size audio_path : pystr)
    : M pydict :=
  _ ← subprocess_run E (ffmpeg_cmd video_path audio_path) true true;
  model ← new_WhisperModel E model_size (py "cpu") (py "int8");
  '(segments, info) ← transcribe E model audio_path 5;
  transcript_parts ← (fun w => (for_segments segments [], w)) : M _;
  let full_transcript := join (py " ") transcript_parts in
  mret [ (py "transcript", VStr full_transcript);
         (py "language", VStr (language info));
         (py "language_probability", VFloat (language_probability info));
         (py "duration", VFloat (duration info)) ].

(** Its [finally] clause. *)
Definition finally_block (audio_path : pystr) : M unit :=
  e ← os_path_exists audio_path;
  if e : bool then os_unlink audio_path else mret tt.

(** [transcribe_video(video_path, model_size)]. *)
Definition transcribe_video (video_path model_size : pystr) : M pydict :=
  audio_path ← with_NamedTemporaryFile E (py ".wav") false
                 (fun name => mret name);
  try_finally (try_block video_path model_size audio_path)
              (finally_block audio_path).

(** The default of the [model_size] parameter. *)
Definition default_model_size : pystr := py "base".

(** A call that leaves [model_size] out. *)
Definition transcribe_video_default (video_path : pystr) : M pydict :=
  transcribe_video video_path default_model_size.

(** The text before and after the message in both error lines:
    an object opened on the key [error], and its end. *)
Definition error_open : pystr :=
  py "{" ++ [0x22] ++ py "error" ++ [0x22] ++ py ": " ++ [0x22].

Definition error_close : pystr := [0x22] ++ py "}".

(** The literal printed when the video path is missing. *)
Definition usage : pystr :=
  error_open ++ py "Usage: transcribe.py <video_path> [model_size]"
  ++ error_close.

(** The f-string of the [except] clause. *)
Definition error_line (e : exn) : pystr :=
  error_open ++ str_exn E e ++ error_close.

(** The [try] statement of the main block, given the two arguments.
    The value is the exit status: 0 when the block runs to its end,
    the argument of [sys.exit] otherwise. *)
Definition run_pipeline (video_path model_size : pystr)
    : world -> Z * world :=
  fun w =>
    match transcribe_video video_path model_size w with
    | (Ok result, w1) => (0%Z, snd (print (json_dumps E result) w1))
    | (Raised e, w1) => (1%Z, snd (print_stderr (error_line e) w1))
    end.

(** The main block, given [sys.argv]. *)
Definition main (argv : list pystr) : world -> Z * world :=
  fun w =>
    if (length argv <? 2)%nat then
      (1%Z, snd (print_stderr usage w))
    else
      let video_path := nth 1 argv [] in
      let model_size :=
        if (2 <? length argv)%nat then nth 2 argv [] else py "base" in
      run_pipeline video_path model_size w.
End Script.

(** ** Reading an error line back

    What [json.loads] makes of a line, restricted to the shape the error
    lines are meant to have: an object with the single member [error]
    whose value is a string (RFC 8259, as [json.decoder] reads it). *)

(** Where the string scanner is: between characters, after a backslash,
    or inside the four digits of a [\u] escape. *)
Inductive scan_state :=
| SNormal
| SEscape
| SHex (remaining : nat) (acc : N).

Definition hexval (c : N) : option N :=
  if (0x30 <=? c) && (c <=? 0x39) then Some (c - 0x30)
  else if (0x61 <=? c) && (c <=? 0x66) then Some (c - 0x57)
  else if (0x41 <=? c) && (c <=? 0x46) then Some (c - 0x37)
  else None.

(** The character a one-letter escape stands for. *)
Definition unescape (c : N) : option N :=
  if c =? 0x22 then Some 0x22
  else if c =? 0x5C then Some 0x5C
  else if c =? 0x2F then Some 0x2F
  else if c =? 0x62 then Some 0x08
  else if c =? 0x66 then Some 0x0C
  else if c =? 0x6E then Some 0x0A
  else if c =? 0x72 then Some 0x0D
  else if c =? 0x74 then Some 0x09
  else None.

(** A high surrogate read from an escape waits in [pending] for a low
    one; anything else releases it as it is. *)
Definition flush (pending : option N) (acc : pystr) : pystr :=
  match pending with
  | Some hi => acc ++ [hi]
  | None => acc
  end.

Definition is_high (u : N) : bool := (0xD800 <=? u) && (u <=? 0xDBFF).
Definition is_low (u : N) : bool := (0xDC00 <=? u) && (u <=? 0xDFFF).

Definition combine_surrogates (hi lo : N) : N :=
  0x10000 + N.lor (N.shiftl (hi - 0xD800) 10) (lo - 0xDC00).

(** [scanstring] after the opening quote (strict mode): the decoded
    string and the text after the closing quote. *)
Fixpoint scanstring (st : scan_state) (pending : option N) (acc : pystr)
    (s : pystr) : option (pystr * pystr) :=
  match s with
  | [] => None
  | c :: r =>
      match st with
      | SNormal =>
          if c =? 0x22 then Some (flush pending acc, r)
          else if c =? 0x5C then scanstring SEscape pending acc r
          else if c <? 0x20 then None
          else scanstring SNormal None (flush pending acc ++ [c]) r
      | SEscape =>
          if c =? 0x75 then scanstring (SHex 4 0) pending acc r
          else
            match unescape c with
            | Some d => scanstring SNormal None (flush pending acc ++ [d]) r
            | None => None
            end
      | SHex (S k) n =>
          match hexval c with
          | None => None
          | Some d =>
              let u := 16 * n + d in
              match k with
              | S _ => scanstring (SHex k u) pending acc r
              | O =>
                  match pending with
                  | Some hi =>
                      if is_low u then
                        scanstring SNormal None
                          (acc ++ [combine_surrogates hi u]) r
                      else if is_high u then
                        scanstring SNormal (Some u) (acc ++ [hi]) r
                      else scanstring SNormal None (acc ++ [hi; u]) r
                  | None =>
                      if is_high u then scanstring SNormal (Some u) acc r
                      else scanstring SNormal None (acc ++ [u]) r
                  end
              end
          end
      | SHex O _ => None
      end
  end.

(** JSON whitespace. *)
Fixpoint skip_ws (s : pystr) : pystr :=
  match s with
  | c :: r =>
      if (c =? 0x20) || (c =? 0x09) || (c =? 0x0A) || (c =? 0x0D)
      then skip_ws r else s
  | [] => []
  end.

Definition expect (c : N) (s : pystr) : option pystr :=
  match s with
  | c' :: r => if c' =? c then Some r else None
  | [] => None
  end.

(** A JSON string literal at the head of [s]. *)
Definition json_string (s : pystr) : option (pystr * pystr) :=
  r ← expect 0x22 s; scanstring SNormal None [] r.

(** The message of [line], when [line] is the JSON text of an object
    with the one member [error] holding a string. *)
Definition loads_error (line : pystr) : option pystr :=
  r ← expect 0x7B (skip_ws line);
  '(k, r) ← json_string (skip_ws r);
  r ← expect 0x3A (skip_ws r);
  '(v, r) ← json_string (skip_ws r);
  r ← expect 0x7D (skip_ws r);
  match skip_ws r with
  | [] => if decide (k = py "error") then Some v else None
  | _ => None
  end.

(** ** Sample platforms *)

(** A state with no file, nothing written and no call made. *)
Definition world0 : world :=
  {| files := ∅; stdout := []; stderr := []; calls := [] |}.

Definition sample_tmp : pystr := py "/tmp/tmpk3v9x2qd.wav".

Definition sample_info : TranscriptionInfo :=
  {| language := py "en";
     language_probability := S754_finite false 1 (-1);
     duration := S754_finite false 5 (-1) |}.

Definition sample_segments : generator :=
  Yield {| text := py "Hello " |} (Yield {| text := py " world" |} StopIteration).

(** A platform on which every step succeeds: the tool writes its last
    argument, the model loads, and two segments are recognised. *)
Definition env_ok : env :=
  {| isprintable := fun _ => true;
     signal_name := fun n => if (n =? 9)%Z then Some (py "SIGKILL") else None;
     float_repr := fun f =>
       match f with
       | S754_finite false 1 (-1) => py "0.5"
       | S754_finite false 5 (-1) => py "2.5"
       | _ => py "0.0"
       end;
     mkstemp := fun _ _ => inr sample_tmp;
     spawn := fun args fs => (Exited 0 [] [], {[List.last args []]} ∪ fs);
     load_model := fun _ _ _ fs => (None, fs);
     run_transcribe := fun _ _ _ fs => (inr (sample_segments, sample_info), fs)
  |}.

(** What the tool says about a video that is not there. *)
Definition sample_tool_stderr : pybytes :=
  list_byte_of_string "nope.mp4: No such file or directory".

(** The tool exits with status 1 and leaves a partial output file. *)
Definition env_ffmpeg_fails : env :=
  {| isprintable := isprintable env_ok;
     signal_name := signal_name env_ok;
     float_repr := float_repr env_ok;
     mkstemp := mkstemp env_ok;
     spawn := fun args fs =>
       (Exited 1 [] sample_tool_stderr, {[List.last args []]} ∪ fs);
     load_model := load_model env_ok;
     run_transcribe := run_transcribe env_ok |}.

(** The tool is not installed. *)
Definition env_no_ffmpeg : env :=
  {| isprintable := isprintable env_ok;
     signal_name := signal_name env_ok;
     float_repr := float_repr env_ok;
     mkstemp := mkstemp env_ok;
     spawn := fun _ fs => (NotStarted 2 (py "No such file or directory"), fs);
     load_model := load_model env_ok;
     run_transcribe := run_transcribe env_ok |}.

(** A video name with a double quote in it. *)
Definition quoted_video : pystr := py "a" ++ [0x22] ++ py "b.mp4".

(** The recognition step raises after one segment. *)
Definition env_inference_fails : env :=
  {| isprintable := isprintable env_ok;
     signal_name := signal_name env_ok;
     float_repr := float_repr env_ok;
     mkstemp := mkstemp env_ok;
     spawn := spawn env_ok;
     load_model := load_model env_ok;
     run_transcribe := fun _ _ _ fs =>
       (inr (Yield {| text := py "Hello " |}
               (Throw (Exception (py "CUDA failed with error out of memory"))),
             sample_info), fs) |}.

(** A literal in which the backquote stands for the double quote, to
    write expected output lines. *)
Definition quoted (s : string) : pystr :=
  map (fun c => if c =? 0x60 then 0x22 else c) (lit s).

(** ** What the recognition step hands over *)

(** The generator that yields the given segments and stops. *)
Fixpoint generator_of (segs : list Segment) : generator :=
  match segs with
  | [] => StopIteration
  | s :: segs' => Yield s (generator_of segs')
  end.

(** The three steps of one call succeed: the temporary file is created
    at [audio_path], the tool exits with status 0, the model loads, and
    inference yields [segs] and [info]. *)
Definition pipeline_succeeds (E : env) (video_path model_size : pystr)
    (w : world) (audio_path : pystr) (segs : list Segment)
    (info : TranscriptionInfo) : Prop :=
  mkstemp E (py ".wav") (files w) = inr audio_path /\
  exists out err fs1 fs2 fs3,
    spawn E (ffmpeg_cmd video_path audio_path) ({[audio_path]} ∪ files w)
      = (Exited 0 out err, fs1) /\
    load_model E model_size (py "cpu") (py "int8") fs1 = (None, fs2) /\
    run_transcribe E
      {| model_size_or_path := model_size; device := py "cpu";
         compute_type := py "int8" |} audio_path 5 fs2
      = (inr (generator_of segs, info), fs3).

(** The result dictionary of a successful call. *)
Definition result_of (segs : list Segment) (info : TranscriptionInfo)
    : pydict :=
  [ (py "transcript",
     VStr (join (py " ") (map (fun s => strip (text s)) segs)));
    (py "language", VStr (language info));
    (py "language_probability", VFloat (language_probability info));
    (py "duration", VFloat (duration info)) ].

(** [d[k]] for a key that is there. *)
Definition field (k : pystr) (d : pydict) : option pyvalue :=
  snd <$> find (fun kv => bool_decide (fst kv = k)) d.

(** No segment at all: a recording of silence. *)
Definition env_silence : env :=
  {| isprintable := isprintable env_ok;
     signal_name := signal_name env_ok;
     float_repr := float_repr env_ok;
     mkstemp := mkstemp env_ok;
     spawn := spawn env_ok;
     load_model := load_model env_ok;
     run_transcribe := fun _ _ _ fs => (inr (StopIteration, sample_info), fs) |}.

(** The argument vectors of the children started among [cs]. *)
Definition subprocess_calls (cs : list call) : list (list pystr) :=
  omap (fun c => match c with
                 | call_subprocess_run args _ _ => Some args
                 | _ => None
                 end) cs.

(** The captured error output an exception carries ([e.stderr]), when
    it carries one. *)
Definition captured_stderr (e : exn) : option pybytes :=
  match e with
  | CalledProcessError _ _ _ err => err
  | _ => None
  end.

(** Characters [json.dumps] leaves in its output: printable ASCII. *)
Definition printable (c : N) : Prop := 0x20 <= c <= 0x7E.

(** Characters a JSON string literal may hold as they are. *)
Definition plain (c : N) : Prop := 0x20 <= c /\ c <> 0x22 /\ c <> 0x5C.

(** ** Notions for the further properties *)

(** The model cannot be loaded. *)
Definition env_model_fails : env :=
  {| isprintable := isprintable env_ok;
     signal_name := signal_name env_ok;
     float_repr := float_repr env_ok;
     mkstemp := mkstemp env_ok;
     spawn := spawn env_ok;
     load_model := fun _ _ _ fs =>
       (Some (Exception (py "Invalid model size 'huge'")), fs);
     run_transcribe := run_transcribe env_ok |}.

(** No temporary file can be created. *)
Definition env_no_tempdir : env :=
  {| isprintable := isprintable env_ok;
     signal_name := signal_name env_ok;
     float_repr := float_repr env_ok;
     mkstemp := fun _ _ =>
       inl (OSError 2 (py "No usable temporary directory found") None);
     spawn := spawn env_ok;
     load_model := load_model env_ok;
     run_transcribe := run_transcribe env_ok |}.

(** Three segments of whitespace only. *)
Definition blank_segments : list Segment :=
  [ {| text := py " " |}; {| text := py "  " |}; {| text := [] |} ].

Definition env_blank : env :=
  {| isprintable := isprintable env_ok;
     signal_name := signal_name env_ok;
     float_repr := float_repr env_ok;
     mkstemp := mkstemp env_ok;
     spawn := spawn env_ok;
     load_model := load_model env_ok;
     run_transcribe := fun _ _ _ fs =>
       (inr (generator_of blank_segments, sample_info), fs) |}.

(** One segment with double quotes, a letter outside ASCII and a
    character outside the basic plane, ending in a line break. *)
Definition unicode_segments : list Segment :=
  [ {| text := [0x22] ++ py "Hi" ++ [0x22; 0x20; 0xE9; 0x20; 0x1F600; 0x0A] |} ].

Definition env_unicode : env :=
  {| isprintable := isprintable env_ok;
     signal_name := signal_name env_ok;
     float_repr := float_repr env_ok;
     mkstemp := mkstemp env_ok;
     spawn := spawn env_ok;
     load_model := load_model env_ok;
     run_transcribe := fun _ _ _ fs =>
       (inr (generator_of unicode_segments, sample_info), fs) |}.

(** Two file sets that hold the same paths, [p] aside. *)
Definition keeps_others (p : pystr) (fs fs' : gset pystr) : Prop :=
  forall q, q <> p -> (q ∈ fs <-> q ∈ fs').

(** The paths [os.unlink] was called on among [cs]. *)
Definition unlink_calls (cs : list call) : list pystr :=
  omap (fun c => match c with
                 | call_unlink path => Some path
                 | _ => None
                 end) cs.

(** A Unicode scalar value: a code point that is not a surrogate. *)
Definition scalar (c : N) : Prop :=
  c < 0xD800 \/ (0xE000 <= c /\ c <= 0x10FFFF).

(** * Properties *)

(** ** The text functions on the literals of the script *)

Example strip_hello : strip (py "Hello ") = py "Hello".
Proof. reflexivity. Qed.

Example join_hello_world :
  join (py " ") [strip (py "Hello "); strip (py " world")] = py "Hello world".
Proof. reflexivity. Qed.

Example decimal_16000 : decimal 16000 = py "16000".
Proof. reflexivity. Qed.

Example hex_001f : hex 4 0x1f = py "001f".
Proof. reflexivity. Qed.

(** ** [strip] and [join] *)

Section StripFacts.
Implicit Types s t : pystr.

Lemma lstrip_split s :
  exists l, s = l ++ lstrip s /\ Forall (fun c => isspace c = true) l.
Proof.
  induction s as [|c s [l [Hs Hl]]]; simpl.
  - exists []. split; [reflexivity | constructor].
  - destruct (isspace c) eqn:Hc.
    + exists (c :: l). split; [simpl; congruence | constructor; assumption].
    + exists []. split; [reflexivity | constructor].
Qed.

Lemma lstrip_head s c : head (lstrip s) = Some c -> isspace c = false.
Proof.
  induction s as [|d s IH]; simpl; [discriminate|].
  destruct (isspace d) eqn:Hd; [exact IH|].
  simpl. intros [= <-]. exact Hd.
Qed.

Lemma rstrip_split s :
  exists r, s = rstrip s ++ r /\ Forall (fun c => isspace c = true) r.
Proof.
  destruct (lstrip_split (reverse s)) as [l [Hs Hl]].
  exists (reverse l). split.
  - unfold rstrip. rewrite <- reverse_app, <- Hs.
    symmetry. apply reverse_involutive.
  - rewrite Forall_reverse. exact Hl.
Qed.

Lemma rstrip_last s c : last (rstrip s) = Some c -> isspace c = false.
Proof. unfold rstrip. rewrite last_reverse. apply lstrip_head. Qed.

Lemma rstrip_head s c :
  head (rstrip s) = Some c -> head s = Some c.
Proof.
  destruct (rstrip_split s) as [r [Hs _]]. intros H.
  rewrite Hs. destruct (rstrip s); [discriminate | exact H].
Qed.

(** [strip] removes a run of whitespace at each end, and what it leaves
    neither starts nor ends with whitespace. *)
Lemma strip_spec s :
  exists l r,
    s = l ++ strip s ++ r /\
    Forall (fun c => isspace c = true) l /\
    Forall (fun c => isspace c = true) r /\
    (forall c, head (strip s) = Some c -> isspace c = false) /\
    (forall c, last (strip s) = Some c -> isspace c = false).
Proof.
  destruct (lstrip_split s) as [l [Hs Hl]].
  destruct (rstrip_split (lstrip s)) as [r [Ht Hr]].
  exists l, r. unfold strip. repeat split; try assumption.
  - rewrite <- Ht. exact Hs.
  - intros c Hc. apply (lstrip_head s), rstrip_head, Hc.
  - intros c. apply rstrip_last.
Qed.

Lemma lstrip_id s :
  (forall c, head s = Some c -> isspace c = false) -> lstrip s = s.
Proof.
  destruct s as [|c s]; [reflexivity|]. simpl. intros H.
  rewrite (H c eq_refl). reflexivity.
Qed.

(** A string with no whitespace at either end is left as it is. *)
Lemma strip_id s :
  (forall c, head s = Some c -> isspace c = false) ->
  (forall c, last s = Some c -> isspace c = false) ->
  strip s = s.
Proof.
  intros Hh Hl. unfold strip, rstrip. rewrite (lstrip_id s Hh).
  rewrite lstrip_id; [apply reverse_involutive|].
  intros c. rewrite head_reverse. apply Hl.
Qed.

Lemma strip_idemp s : strip (strip s) = strip s.
Proof.
  destruct (strip_spec s) as (l & r & _ & _ & _ & Hh & Hl).
  apply strip_id; assumption.
Qed.
End StripFacts.

(** The loop appends the stripped texts in order. *)
Lemma for_segments_generator_of segs parts :
  for_segments (generator_of segs) parts
  = Ok (parts ++ map (fun s => strip (text s)) segs).
Proof.
  revert parts. induction segs as [|s segs IH]; intros parts; simpl.
  - rewrite app_nil_r. reflexivity.
  - rewrite IH, <- app_assoc. reflexivity.
Qed.

(** A generator that raises makes the loop raise. *)
Lemma for_segments_raises segs e parts :
  for_segments (fold_right Yield (Throw e) segs) parts = Raised e.
Proof.
  revert parts. induction segs as [|s segs IH]; intros parts; simpl;
    [reflexivity | apply IH].
Qed.

(** ** [json.dumps] writes printable ASCII *)

Lemma hexdigit_printable d : d < 16 -> printable (hexdigit d).
Proof.
  intros H. unfold printable, hexdigit.
  destruct (d <? 10) eqn:Hd; [apply N.ltb_lt in Hd | apply N.ltb_ge in Hd]; lia.
Qed.

Lemma hex_printable k n : Forall printable (hex k n).
Proof.
  revert n. induction k as [|k IH]; intros n; simpl; [constructor|].
  apply Forall_app. split; [apply IH|].
  constructor; [|constructor]. apply hexdigit_printable.
  change 0xF with (N.ones 4). rewrite N.land_ones.
  apply N.mod_lt. discriminate.
Qed.

Lemma lit_printable (s : string) :
  forallb (fun c => (0x20 <=? c) && (c <=? 0x7E)) (lit s) = true ->
  Forall printable (lit s).
Proof.
  intros H. apply Forall_forall. intros c Hc.
  rewrite forallb_forall in H. apply list_elem_of_In in Hc.
  specialize (H c Hc). apply andb_true_iff in H as [H1 H2].
  apply N.leb_le in H1, H2. split; assumption.
Qed.

Lemma json_escape_printable c : Forall printable (json_escape c).
Proof.
  unfold json_escape.
  repeat match goal with
         | |- context [if ?b then _ else _] => destruct b eqn:?
         end;
    repeat first
      [ apply List.Forall_nil
      | apply hex_printable
      | apply Forall_app_2
      | apply List.Forall_cons; [unfold printable; try lia|] ].
  match goal with
  | H : (_ && _) = true |- _ =>
      apply andb_true_iff in H as [H1%N.leb_le H2%N.leb_le]; lia
  end.
Qed.

Lemma concat_printable (l : list pystr) :
  Forall (Forall printable) l -> Forall printable (concat l).
Proof.
  induction 1; simpl; [constructor | apply Forall_app; split; assumption].
Qed.

Lemma py_encode_basestring_ascii_printable s :
  Forall printable (py_encode_basestring_ascii s).
Proof.
  unfold py_encode_basestring_ascii.
  apply Forall_app; split; [repeat constructor; unfold printable; lia|].
  apply Forall_app; split; [|repeat constructor; unfold printable; lia].
  apply concat_printable, Forall_map, Forall_forall.
  intros c _. apply json_escape_printable.
Qed.

Lemma join_printable sep parts :
  Forall printable sep -> Forall (Forall printable) parts ->
  Forall printable (join sep parts).
Proof.
  intros Hsep. induction 1 as [|p ps Hp Hps IH]; simpl; [constructor|].
  destruct ps as [|q ps]; [assumption|].
  apply Forall_app; split; [assumption|].
  apply Forall_app; split; assumption.
Qed.

Lemma floatstr_printable E f :
  (forall g, Forall printable (float_repr E g)) ->
  Forall printable (floatstr E f).
Proof.
  intros H. destruct f as [s|[|]| |s m e]; simpl; try apply H;
    apply lit_printable; reflexivity.
Qed.

(** With a [float.__repr__] that writes printable ASCII, so does
    [json.dumps]. *)
Lemma json_dumps_printable E d :
  (forall g, Forall printable (float_repr E g)) ->
  Forall printable (json_dumps E d).
Proof.
  intros H. unfold json_dumps.
  apply Forall_app_2; [apply lit_printable; reflexivity|].
  apply Forall_app_2; [|apply lit_printable; reflexivity].
  apply join_printable; [apply lit_printable; reflexivity|].
  apply Forall_map, Forall_forall. intros [k v] _.
  unfold json_item. cbn [fst snd].
  apply Forall_app_2; [apply py_encode_basestring_ascii_printable|].
  apply Forall_app_2; [apply lit_printable; reflexivity|].
  destruct v; cbn [json_value];
    [apply py_encode_basestring_ascii_printable | apply floatstr_printable, H].
Qed.

Lemma printable_no_newline (l : pystr) : Forall printable l -> 0x0A ∉ l.
Proof.
  intros H Hin. rewrite Forall_forall in H.
  specialize (H _ Hin). unfold printable in H. lia.
Qed.

(** A generator either runs to its end or raises after some segments. *)
Lemma generator_cases g :
  (exists segs, g = generator_of segs) \/
  (exists segs e, g = fold_right Yield (Throw e) segs).
Proof.
  induction g as [|s g [[segs ->]|[segs [e ->]]]|e].
  - left. exists []. reflexivity.
  - left. exists (s :: segs). reflexivity.
  - right. exists (s :: segs), e. reflexivity.
  - right. exists [], e. reflexivity.
Qed.

(** The text of the line printed for a result. *)
Lemma json_dumps_result E segs info :
  json_dumps E (result_of segs info)
  = quoted "{`transcript`: "
    ++ py_encode_basestring_ascii
         (join (py " ") (map (fun s => strip (text s)) segs))
    ++ quoted ", `language`: "
    ++ py_encode_basestring_ascii (language info)
    ++ quoted ", `language_probability`: "
    ++ floatstr E (language_probability info)
    ++ quoted ", `duration`: "
    ++ floatstr E (duration info)
    ++ py "}".
Proof.
  unfold json_dumps, result_of, json_item. cbn [map fst snd json_value join].
  repeat rewrite <- app_assoc. reflexivity.
Qed.

(** ** Error lines that read back *)

Lemma scanstring_plain msg acc rest :
  Forall plain msg ->
  scanstring SNormal None acc (msg ++ 0x22 :: rest) = Some (acc ++ msg, rest).
Proof.
  intros H. revert acc.
  induction H as [|c msg [H1 [H2 H3]] Hmsg IH]; intros acc; simpl.
  - rewrite app_nil_r. reflexivity.
  - apply N.eqb_neq in H2, H3. rewrite H2, H3.
    destruct (c <? 0x20) eqn:Hc; [apply N.ltb_lt in Hc; lia|].
    rewrite IH, <- app_assoc. reflexivity.
Qed.

(** An error line whose message needs no escaping is the JSON text of
    the object with that message. *)
Lemma error_open_codes :
  error_open = [0x7B; 0x22; 0x65; 0x72; 0x72; 0x6F; 0x72; 0x22; 0x3A; 0x20; 0x22].
Proof. reflexivity. Qed.

Lemma error_close_codes : error_close = [0x22; 0x7D].
Proof. reflexivity. Qed.

Lemma error_line_plain E e :
  Forall plain (str_exn E e) ->
  loads_error (error_line E e) = Some (str_exn E e).
Proof.
  intros H. unfold error_line, loads_error.
  rewrite error_open_codes, error_close_codes.
  generalize dependent (str_exn E e). intros msg H.
  simpl. unfold json_string. simpl.
  rewrite (scanstring_plain msg [] [0x7D] H). reflexivity.
Qed.

(** ** Error lines that do not read back *)

Lemma length_flush pend (acc : pystr) :
  length (flush pend acc) = (length acc + length (flush pend []))%nat.
Proof. destruct pend; simpl; [rewrite length_app; reflexivity | lia]. Qed.

(** The scanner never gives more characters than it reads, and the
    closing quote gives none. *)
Lemma scanstring_length s : forall st pend acc v r,
  scanstring st pend acc s = Some (v, r) ->
  (length v + length r + 1 <= length acc + length (flush pend []) + length s)%nat.
Proof.
  induction s as [|c s IH]; intros st pend acc v r H; simpl in H;
    [discriminate|].
  destruct st as [| |[|k] n].
  - destruct (c =? 0x22).
    { injection H as <- <-. rewrite length_flush. simpl. lia. }
    destruct (c =? 0x5C); [apply IH in H; simpl; lia|].
    destruct (c <? 0x20); [discriminate|].
    apply IH in H. rewrite length_app, length_flush in H. simpl in *. lia.
  - destruct (c =? 0x75); [apply IH in H; simpl; lia|].
    destruct (unescape c); [|discriminate].
    apply IH in H. rewrite length_app, length_flush in H. simpl in *. lia.
  - discriminate.
  - destruct (hexval c) as [d|]; [|discriminate].
    destruct k; [|apply IH in H; simpl; lia].
    destruct pend as [hi|].
    + destruct (is_low _); [|destruct (is_high _)];
        apply IH in H; rewrite length_app in H; simpl in *; lia.
    + destruct (is_high _); apply IH in H;
        rewrite ?length_app in H; simpl in *; lia.
Qed.

Lemma scanstring_plain_prefix pre acc rest :
  Forall plain pre ->
  scanstring SNormal None acc (pre ++ rest)
  = scanstring SNormal None (acc ++ pre) rest.
Proof.
  intros H. revert acc.
  induction H as [|c pre [H1 [H2 H3]] Hpre IH]; intros acc; simpl.
  - rewrite app_nil_r. reflexivity.
  - apply N.eqb_neq in H2, H3. rewrite H2, H3.
    destruct (c <? 0x20) eqn:Hc; [apply N.ltb_lt in Hc; lia|].
    rewrite IH, <- app_assoc. reflexivity.
Qed.

Lemma plain_dec c : plain c \/ (c < 0x20 \/ c = 0x22 \/ c = 0x5C).
Proof.
  unfold plain.
  destruct (N.ltb_spec c 0x20); [right; auto|].
  destruct (N.eq_dec c 0x22); [right; auto|].
  destruct (N.eq_dec c 0x5C); [right; auto|].
  left. auto.
Qed.

(** A message is plain throughout, or has a first character that is
    not. *)
Lemma plain_split (msg : pystr) :
  Forall plain msg \/
  exists pre c post,
    msg = pre ++ c :: post /\ Forall plain pre /\
    (c < 0x20 \/ c = 0x22 \/ c = 0x5C).
Proof.
  induction msg as [|c msg IH]; [left; constructor|].
  destruct (plain_dec c) as [Hc|Hc].
  - destruct IH as [IH|(pre & d & post & -> & Hpre & Hd)].
    + left. constructor; assumption.
    + right. exists (c :: pre), d, post. repeat split; auto.
  - right. exists [], c, msg. repeat split; auto.
Qed.

(** What [loads_error] makes of an error line, in terms of the scan of
    its message. *)
Lemma loads_error_line (msg : pystr) :
  loads_error (error_open ++ msg ++ error_close)
  = match scanstring SNormal None [] (msg ++ [0x22; 0x7D]) with
    | Some (v, r) =>
        match expect 0x7D (skip_ws r) with
        | Some r' => match skip_ws r' with [] => Some v | _ => None end
        | None => None
        end
    | None => None
    end.
Proof.
  unfold loads_error. rewrite error_open_codes, error_close_codes.
  simpl. unfold json_string. simpl.
  destruct (scanstring SNormal None [] (msg ++ [0x22; 0x7D])) as [[v r]|];
    simpl; [|reflexivity].
  destruct (expect 0x7D (skip_ws r)); reflexivity.
Qed.

Lemma expect_nonempty c s r : expect c (skip_ws s) = Some r -> s <> [].
Proof. intros H ->. discriminate H. Qed.

(** The error line is the JSON object of its message exactly when the
    message has no double quote, no backslash and no control
    character. *)
Lemma error_line_reads_back E e :
  loads_error (error_line E e) = Some (str_exn E e) <->
  Forall plain (str_exn E e).
Proof.
  split; [|apply error_line_plain].
  unfold error_line. generalize (str_exn E e). intros msg.
  rewrite loads_error_line. intros H.
  destruct (plain_split msg) as [Hp|(pre & c & post & -> & Hpre & Hc)];
    [exact Hp|exfalso].
  rewrite <- app_assoc, (scanstring_plain_prefix pre [] _ Hpre) in H.
  simpl in H.
  destruct (c =? 0x22) eqn:Hq.
  { destruct (expect 0x7D _); [|discriminate].
    destruct (skip_ws _); [|discriminate].
    injection H as H. apply (f_equal length) in H.
    rewrite length_app in H. simpl in H. lia. }
  destruct (c =? 0x5C) eqn:Hb.
  { destruct (scanstring SEscape None pre _) as [[v r]|] eqn:Hs; [|discriminate].
    apply scanstring_length in Hs.
    destruct (expect 0x7D (skip_ws r)) as [r'|] eqn:Hr; [|discriminate].
    apply expect_nonempty in Hr.
    destruct (skip_ws r'); [|discriminate].
    injection H as ->. rewrite !length_app in Hs. simpl in Hs.
    destruct r; [congruence | simpl in Hs; lia]. }
  apply N.eqb_neq in Hq, Hb.
  destruct (c <? 0x20) eqn:Hc'; [discriminate|].
  apply N.ltb_ge in Hc'. lia.
Qed.

(** ** Running [transcribe_video] *)

Arguments lit : simpl never.
Arguments ffmpeg_cmd : simpl never.

Ltac unfold_run :=
  unfold transcribe_video, try_block, finally_block, with_NamedTemporaryFile,
    subprocess_run, new_WhisperModel, transcribe, os_path_exists, os_unlink,
    try_finally, mbind, M_bind, bind, mret, M_ret, ret;
  simpl.

(** The [finally] clause always ends normally, leaves no file at the
    path, writes nothing, and calls at most [os.unlink] on the path. *)
Lemma finally_block_spec p w :
  exists w',
    finally_block p w = (Ok tt, w') /\ (p ∉ files w') /\
    stdout w' = stdout w /\ stderr w' = stderr w /\
    (calls w' = calls w \/ calls w' = calls w ++ [call_unlink p]).
Proof.
  unfold_run. destruct (bool_decide (p ∈ files w)) eqn:Hp.
  - rewrite Hp. eexists. split; [reflexivity|]. simpl.
    split; [|auto].
    apply not_elem_of_difference. right. apply elem_of_singleton. reflexivity.
  - eexists. split; [reflexivity|]. apply bool_decide_eq_false in Hp. auto.
Qed.

(** Whatever the body does, the state after [try ... finally] is the
    one the [finally] clause leaves, and the outcome is the body's. *)
Lemma try_finally_block {A} (body : M A) p w :
  exists w',
    try_finally body (finally_block p) w = (fst (body w), w') /\
    finally_block p (snd (body w)) = (Ok tt, w').
Proof.
  unfold try_finally. destruct (body w) as [r w1]. simpl.
  destruct (finally_block_spec p w1) as (w' & Hf & _).
  exists w'. rewrite Hf. auto.
Qed.

(** The [try] block writes to neither stream: the output of the child
    is captured. *)
Lemma try_block_streams E v m p w :
  stdout (snd (try_block E v m p w)) = stdout w /\
  stderr (snd (try_block E v m p w)) = stderr w.
Proof.
  unfold_run.
  destruct (spawn E _ _) as [[errno strerror|rc out err] fs1]; simpl; [auto|].
  destruct (rc =? 0)%Z; simpl; [|auto].
  destruct (load_model E _ _ _ _) as [[e|] fs2]; simpl; [auto|].
  destruct (run_transcribe E _ _ _ _) as [[e|[g info]] fs3]; simpl; [auto|].
  destruct (for_segments g []); simpl; auto.
Qed.

(** A call of [transcribe_video] whose temporary file cannot be created
    raises at once. *)
Lemma transcribe_video_no_tempfile E v m w e :
  mkstemp E (py ".wav") (files w) = inl e ->
  transcribe_video E v m w
  = (Raised e, log (call_NamedTemporaryFile (py ".wav") false) w).
Proof. intros H. unfold_run. rewrite H. reflexivity. Qed.

(** Once the file is created, the call is the [try] statement run in
    the state that has the file. *)
Lemma transcribe_video_tempfile E v m w p :
  mkstemp E (py ".wav") (files w) = inr p ->
  transcribe_video E v m w
  = try_finally (try_block E v m p) (finally_block p)
      (set_files ({[p]} ∪ files w)
         (log (call_NamedTemporaryFile (py ".wav") false) w)).
Proof.
  intros H. unfold transcribe_video, with_NamedTemporaryFile,
    mbind, M_bind, bind, mret, M_ret, ret. simpl. rewrite H. reflexivity.
Qed.

(** [transcribe_video] writes to neither stream. *)
Lemma transcribe_video_streams E v m w :
  stdout (snd (transcribe_video E v m w)) = stdout w /\
  stderr (snd (transcribe_video E v m w)) = stderr w.
Proof.
  destruct (mkstemp E (py ".wav") (files w)) as [e|p] eqn:Hp.
  - rewrite (transcribe_video_no_tempfile _ _ _ _ _ Hp). auto.
  - rewrite (transcribe_video_tempfile _ _ _ _ _ Hp).
    match goal with |- context [try_finally ?b ?f ?w0] =>
      destruct (try_finally_block b p w0) as (w' & -> & Hf);
      destruct (finally_block_spec p (snd (b w0))) as (w'' & Hf' & _ & Ho & He & _);
      destruct (try_block_streams E v m p w0) as [Ho' He']
    end.
    rewrite Hf in Hf'. injection Hf' as <-. simpl.
    rewrite Ho, He, Ho', He'. auto.
Qed.

(** The calls of the [try] block: the tool, then the model, then the
    inference, each made once and only when the one before succeeded. *)
Lemma try_block_calls E v m p w :
  exists steps,
    calls (snd (try_block E v m p w))
    = calls w ++ call_subprocess_run (ffmpeg_cmd v p) true true :: steps /\
    (steps = [] \/
     steps = [call_WhisperModel m (py "cpu") (py "int8")] \/
     steps = [call_WhisperModel m (py "cpu") (py "int8");
              call_transcribe p 5]) /\
    (forall d, fst (try_block E v m p w) = Ok d ->
               steps = [call_WhisperModel m (py "cpu") (py "int8");
                        call_transcribe p 5]) /\
    (forall out err fs1,
       spawn E (ffmpeg_cmd v p) (files w) = (Exited 0 out err, fs1) ->
       steps <> [] /\
       forall fs2,
         load_model E m (py "cpu") (py "int8") fs1 = (None, fs2) ->
         steps = [call_WhisperModel m (py "cpu") (py "int8");
                  call_transcribe p 5]).
Proof.
  unfold_run.
  destruct (spawn E _ _) as [[errno strerror|rc out err] fs1] eqn:Hs; simpl.
  { exists []. split; [reflexivity|]. split; [auto|].
    split; discriminate. }
  destruct (rc =? 0)%Z eqn:Hrc; simpl.
  2:{ exists []. split; [reflexivity|]. split; [auto|].
      split; [discriminate|].
      intros out' err' fs1' [= -> _ _ _]. discriminate Hrc. }
  destruct (load_model E _ _ _ _) as [[e|] fs2] eqn:Hl; simpl.
  { eexists [_]. rewrite <- app_assoc.
    split; [reflexivity|]. split; [auto|]. split; [discriminate|].
    intros out' err' fs1' [= _ _ _ <-]. split; [discriminate|].
    intros fs2' H. rewrite Hl in H. discriminate H. }
  exists [call_WhisperModel m (py "cpu") (py "int8"); call_transcribe p 5].
  destruct (run_transcribe E _ _ _ _) as [[e|[g info]] fs3]; simpl;
    try destruct (for_segments g []); simpl; rewrite <- !app_assoc;
    (split; [reflexivity|]); (split; [auto|]);
    (split; [auto; discriminate|]);
    intros; (split; [discriminate | auto]).
Qed.

(** The calls of one [transcribe_video] whose temporary file exists. *)
Lemma transcribe_video_calls E v m w p :
  mkstemp E (py ".wav") (files w) = inr p ->
  exists steps cleanup,
    calls (snd (transcribe_video E v m w))
    = calls w ++
      [call_NamedTemporaryFile (py ".wav") false;
       call_subprocess_run (ffmpeg_cmd v p) true true] ++ steps ++ cleanup /\
    (steps = [] \/
     steps = [call_WhisperModel m (py "cpu") (py "int8")] \/
     steps = [call_WhisperModel m (py "cpu") (py "int8");
              call_transcribe p 5]) /\
    (cleanup = [] \/ cleanup = [call_unlink p]) /\
    (forall d, fst (transcribe_video E v m w) = Ok d ->
               steps = [call_WhisperModel m (py "cpu") (py "int8");
                        call_transcribe p 5]) /\
    (forall out err fs1,
       spawn E (ffmpeg_cmd v p) ({[p]} ∪ files w) = (Exited 0 out err, fs1) ->
       steps <> [] /\
       forall fs2,
         load_model E m (py "cpu") (py "int8") fs1 = (None, fs2) ->
         steps = [call_WhisperModel m (py "cpu") (py "int8");
                  call_transcribe p 5]).
Proof.
  intros Hp. rewrite (transcribe_video_tempfile _ _ _ _ _ Hp).
  match goal with |- context [try_finally ?b ?f ?w0] =>
    destruct (try_finally_block b p w0) as (w' & -> & Hf);
    destruct (finally_block_spec p (snd (b w0))) as (w'' & Hf' & _ & _ & _ & Hc);
    destruct (try_block_calls E v m p w0)
      as (steps & Hs & Hcases & Hok & Hreach)
  end.
  rewrite Hf in Hf'. injection Hf' as <-. simpl in *.
  destruct Hc as [Hc|Hc]; rewrite Hc, Hs; simpl.
  - exists steps, []. rewrite app_nil_r, <- app_assoc. simpl. auto 6.
  - exists steps, [call_unlink p]. rewrite <- !app_assoc. simpl. auto 7.
Qed.

(** The [try] block on the success path. *)
Lemma try_block_success E v m p w out err fs1 fs2 fs3 segs info :
  spawn E (ffmpeg_cmd v p) (files w) = (Exited 0 out err, fs1) ->
  load_model E m (py "cpu") (py "int8") fs1 = (None, fs2) ->
  run_transcribe E
    {| model_size_or_path := m; device := py "cpu"; compute_type := py "int8" |}
    p 5 fs2 = (inr (generator_of segs, info), fs3) ->
  fst (try_block E v m p w) = Ok (result_of segs info).
Proof.
  intros H1 H2 H3. unfold_run. rewrite H1. simpl. rewrite H2. simpl.
  rewrite H3. simpl. rewrite for_segments_generator_of. reflexivity.
Qed.

(** The [try] block when the tool fails. *)
Lemma try_block_tool_failed E v m p w rc out err fs1 :
  spawn E (ffmpeg_cmd v p) (files w) = (Exited rc out err, fs1) ->
  rc <> 0%Z ->
  fst (try_block E v m p w)
  = Raised (CalledProcessError rc (ffmpeg_cmd v p) (Some out) (Some err)).
Proof.
  intros H1 Hrc. unfold_run. rewrite H1. simpl.
  apply Z.eqb_neq in Hrc. rewrite Hrc. reflexivity.
Qed.

(** The [try] block when the tool cannot be started. *)
Lemma try_block_tool_missing E v m p w errno strerror fs1 :
  spawn E (ffmpeg_cmd v p) (files w) = (NotStarted errno strerror, fs1) ->
  fst (try_block E v m p w)
  = Raised (OSError errno strerror (Some (py "ffmpeg"))).
Proof. intros H1. unfold_run. rewrite H1. reflexivity. Qed.

(** With the temporary file in place, the outcome of the call is the
    outcome of its [try] block. *)
Lemma transcribe_video_outcome E v m w p :
  mkstemp E (py ".wav") (files w) = inr p ->
  fst (transcribe_video E v m w)
  = fst (try_block E v m p
           (set_files ({[p]} ∪ files w)
              (log (call_NamedTemporaryFile (py ".wav") false) w))).
Proof.
  intros Hp. rewrite (transcribe_video_tempfile _ _ _ _ _ Hp).
  match goal with |- context [try_finally ?b ?f ?w0] =>
    destruct (try_finally_block b p w0) as (w' & -> & _)
  end.
  reflexivity.
Qed.

(** A successful call returns the assembled dictionary. *)
Lemma transcribe_video_success E v m w p segs info :
  pipeline_succeeds E v m w p segs info ->
  fst (transcribe_video E v m w) = Ok (result_of segs info).
Proof.
  intros (Hp & out & err & fs1 & fs2 & fs3 & H1 & H2 & H3).
  rewrite (transcribe_video_outcome _ _ _ _ _ Hp).
  eapply try_block_success; eassumption.
Qed.

(** ** Running the main block *)

Lemma run_pipeline_ok E v m w d :
  fst (transcribe_video E v m w) = Ok d ->
  run_pipeline E v m w
  = (0%Z, write_stdout (json_dumps E d ++ [0x0A])
            (snd (transcribe_video E v m w))).
Proof.
  unfold run_pipeline. destruct (transcribe_video E v m w) as [r w1].
  simpl. intros ->. reflexivity.
Qed.

Lemma run_pipeline_raised E v m w e :
  fst (transcribe_video E v m w) = Raised e ->
  run_pipeline E v m w
  = (1%Z, write_stderr (error_line E e ++ [0x0A])
            (snd (transcribe_video E v m w))).
Proof.
  unfold run_pipeline. destruct (transcribe_video E v m w) as [r w1].
  simpl. intros ->. reflexivity.
Qed.

(** With a video path on the command line, the main block runs the
    pipeline on it, with the next argument or [base] as model size. *)
Lemma main_run_pipeline E prog v rest w :
  main E (prog :: v :: rest) w
  = run_pipeline E v (hd (py "base") rest) w.
Proof. unfold main. destruct rest; reflexivity. Qed.

(** The message of a failed child does not depend on what the child
    wrote. *)
Lemma str_exn_ignores_output E rc cmd out err out' err' :
  str_exn E (CalledProcessError rc cmd out err)
  = str_exn E (CalledProcessError rc cmd out' err').
Proof. reflexivity. Qed.

(** Every call made by [transcribe_video]: the temporary file, the
    tool, the removal, the model with the given size on [cpu] in
    [int8], and the inference on the temporary file with beam size 5. *)
Lemma transcribe_video_calls_in E v m w :
  exists new,
    calls (snd (transcribe_video E v m w)) = calls w ++ new /\
    (forall c, c ∈ new ->
       (exists suffix delete, c = call_NamedTemporaryFile suffix delete) \/
       (exists args check cap, c = call_subprocess_run args check cap) \/
       (exists path, c = call_unlink path) \/
       c = call_WhisperModel m (py "cpu") (py "int8") \/
       (exists p, mkstemp E (py ".wav") (files w) = inr p /\
                  c = call_transcribe p 5)) /\
    (forall d, fst (transcribe_video E v m w) = Ok d ->
       call_WhisperModel m (py "cpu") (py "int8") ∈ new /\
       exists p, call_transcribe p 5 ∈ new) /\
    (forall p out err fs1,
       mkstemp E (py ".wav") (files w) = inr p ->
       spawn E (ffmpeg_cmd v p) ({[p]} ∪ files w) = (Exited 0 out err, fs1) ->
       call_WhisperModel m (py "cpu") (py "int8") ∈ new /\
       forall fs2,
         load_model E m (py "cpu") (py "int8") fs1 = (None, fs2) ->
         call_transcribe p 5 ∈ new).
Proof.
  destruct (mkstemp E (py ".wav") (files w)) as [e|p] eqn:Hp.
  - rewrite (transcribe_video_no_tempfile _ _ _ _ _ Hp). simpl.
    exists [call_NamedTemporaryFile (py ".wav") false].
    split; [reflexivity|]. split; [|split; discriminate].
    intros c Hc. apply list_elem_of_singleton in Hc. eauto.
  - destruct (transcribe_video_calls E v m w p Hp)
      as (steps & cleanup & Hc & Hsteps & Hcleanup & Hok & Hreach).
    eexists. split; [exact Hc|]. split; [|split].
    + intros c Hc'. rewrite !elem_of_app in Hc'.
      destruct Hc' as [Hc'|[Hc'|Hc']].
      * repeat (apply elem_of_cons in Hc' as [Hc'|Hc']; [eauto 7|]).
        apply elem_of_nil in Hc'. contradiction.
      * destruct Hsteps as [-> | [-> | ->]];
          repeat (apply elem_of_cons in Hc' as [Hc'|Hc']; [eauto 9|]);
          apply elem_of_nil in Hc'; contradiction.
      * destruct Hcleanup as [-> | ->];
          repeat (apply elem_of_cons in Hc' as [Hc'|Hc']; [eauto 7|]);
          apply elem_of_nil in Hc'; contradiction.
    + intros d Hd. rewrite (Hok d Hd). split; [|exists p];
        rewrite !elem_of_app; right; left;
        repeat (apply elem_of_cons; (left; reflexivity) || right).
    + intros q out err fs1 [= <-] Hs.
      destruct (Hreach out err fs1 Hs) as [Hne Hload]. split.
      * rewrite !elem_of_app. right. left.
        destruct Hsteps as [-> | [-> | ->]]; [contradiction| |];
          apply elem_of_cons; left; reflexivity.
      * intros fs2 Hl. rewrite (Hload fs2 Hl), !elem_of_app. right. left.
        apply elem_of_cons. right. apply elem_of_cons. left. reflexivity.
Qed.

(** Printing makes no call. *)
Lemma run_pipeline_calls E v m w :
  calls (snd (run_pipeline E v m w)) = calls (snd (transcribe_video E v m w)).
Proof.
  unfold run_pipeline. destruct (transcribe_video E v m w) as [[d|e] w1];
    reflexivity.
Qed.

(** Every exception of the pipeline ends the process with status 1,
    nothing on standard output and the error line on standard error. *)
Lemma main_reports_exception E prog v rest w e :
  fst (transcribe_video E v (hd (py "base") rest) w) = Raised e ->
  fst (main E (prog :: v :: rest) w) = 1%Z /\
  stdout (snd (main E (prog :: v :: rest) w)) = stdout w /\
  stderr (snd (main E (prog :: v :: rest) w))
  = stderr w ++ error_line E e ++ [0x0A].
Proof.
  intros He. rewrite main_run_pipeline, (run_pipeline_raised _ _ _ _ _ He).
  destruct (transcribe_video_streams E v (hd (py "base") rest) w) as [Ho Herr].
  simpl. rewrite Ho, Herr. auto.
Qed.

(** Once the temporary file exists and the tool has exited with status
    0, a call loads the model with the size it was given, and with no
    other. *)
Lemma transcribe_video_loads_size E v m w p out err fs1 :
  mkstemp E (py ".wav") (files w) = inr p ->
  spawn E (ffmpeg_cmd v p) ({[p]} ∪ files w) = (Exited 0 out err, fs1) ->
  exists new,
    calls (snd (transcribe_video E v m w)) = calls w ++ new /\
    call_WhisperModel m (py "cpu") (py "int8") ∈ new /\
    (forall size dev ct, call_WhisperModel size dev ct ∈ new -> size = m).
Proof.
  intros Hp Hs.
  destruct (transcribe_video_calls_in E v m w)
    as (new & Hc & Hin & _ & Hreach).
  exists new. split; [exact Hc|]. split.
  - apply (Hreach p out err fs1 Hp Hs).
  - intros size dev ct Hc'. apply Hin in Hc'.
    destruct Hc' as [(? & ? & H)|[(? & ? & ? & H)|[(? & H)|[H|(? & _ & H)]]]];
      try discriminate.
    injection H as -> _ _. reflexivity.
Qed.

(** * The claims *)

(** C1. For every call of [transcribe_video], whether it returns a
    result or raises at any step, the temporary audio file created at
    the start does not exist when the call is over. *)
Theorem temp_file_removed E v m w p :
  mkstemp E (py ".wav") (files w) = inr p ->
  p ∉ files (snd (transcribe_video E v m w)).
Proof.
  intros Hp. rewrite (transcribe_video_tempfile _ _ _ _ _ Hp).
  match goal with |- context [try_finally ?b ?f ?w0] =>
    destruct (try_finally_block b p w0) as (w' & -> & Hf);
    destruct (finally_block_spec p (snd (b w0))) as (w'' & Hf' & Hnot & _)
  end.
  rewrite Hf in Hf'. injection Hf' as <-. exact Hnot.
Qed.

(** C2. For every finite sequence of segments, the transcript field of
    the result is the texts of the segments, each stripped of leading
    and trailing whitespace first, joined in order by one space. *)
Theorem transcript_joined E v m w p segs info :
  pipeline_succeeds E v m w p segs info ->
  exists d,
    fst (transcribe_video E v m w) = Ok d /\
    field (py "transcript") d
    = Some (VStr (join (py " ") (map strip (map text segs)))).
Proof.
  intros H. exists (result_of segs info).
  split; [apply transcribe_video_success with p; exact H|].
  rewrite map_map. reflexivity.
Qed.

(** C3. Every failure of a pipeline step is to end the process with
    status 1 and one JSON object with the single member [error] on
    standard error. For a video name with a double quote in it
    ([quoted_video]), whose extraction fails, the process does exit
    with status 1 and writes nothing to standard output, but the line
    on standard error holds the message unescaped and is not the JSON
    text of such an object. *)
Theorem error_line_not_json :
  let run := main env_ffmpeg_fails [py "transcribe.py"; quoted_video] world0 in
  fst run = 1%Z /\
  stdout (snd run) = [] /\
  stderr (snd run)
  = quoted "{`error`: `Command '['ffmpeg', '-i', 'a`b.mp4', '-vn', '-acodec', 'pcm_s16le', '-ar', '16000', '-ac', '1', '-y', '/tmp/tmpk3v9x2qd.wav']' returned non-zero exit status 1.`}"
    ++ [0x0A] /\
  loads_error (stderr (snd run)) = None.
Proof. vm_compute. repeat split. Qed.

(** C4, as stated, fails where the tool is not installed: the child is
    never started, and the exception raised carries no captured output
    of the tool. *)
Lemma missing_tool_carries_no_output :
  fst (spawn env_no_ffmpeg (ffmpeg_cmd (py "nope.mp4") sample_tmp)
         ({[sample_tmp]} ∪ ∅))
  = NotStarted 2 (py "No such file or directory") /\
  fst (transcribe_video env_no_ffmpeg (py "nope.mp4") (py "base") world0)
  = Raised (OSError 2 (py "No such file or directory") (Some (py "ffmpeg"))) /\
  captured_stderr
    (OSError 2 (py "No such file or directory") (Some (py "ffmpeg")))
  = None.
Proof. repeat split. Qed.

(** C4, amended. When the tool exits with a status other than 0,
    extraction raises a [CalledProcessError] carrying the command, the
    status and the captured output and error output of the tool; when
    the tool cannot be started, it raises the [OSError] of the failed
    start, naming [ffmpeg], which carries no output. In both cases the
    process exits with status 1 and writes the error line of that
    exception to standard error; for a tool that ran, the line is made
    from the command and the status alone and is the same whatever the
    tool wrote. *)
Theorem extraction_failure E prog v rest w p c fs1 :
  mkstemp E (py ".wav") (files w) = inr p ->
  spawn E (ffmpeg_cmd v p) ({[p]} ∪ files w) = (c, fs1) ->
  (forall out err, c <> Exited 0 out err) ->
  exists e,
    fst (transcribe_video E v (hd (py "base") rest) w) = Raised e /\
    match c with
    | Exited rc out err =>
        e = CalledProcessError rc (ffmpeg_cmd v p) (Some out) (Some err) /\
        captured_stderr e = Some err /\
        error_line E e
        = error_line E (CalledProcessError rc (ffmpeg_cmd v p) None None)
    | NotStarted errno strerror =>
        e = OSError errno strerror (Some (py "ffmpeg")) /\
        captured_stderr e = None
    end /\
    fst (main E (prog :: v :: rest) w) = 1%Z /\
    stderr (snd (main E (prog :: v :: rest) w))
    = stderr w ++ error_line E e ++ [0x0A].
Proof.
  intros Hp Hc Hfail.
  assert (He : exists e,
    fst (transcribe_video E v (hd (py "base") rest) w) = Raised e /\
    match c with
    | Exited rc out err =>
        e = CalledProcessError rc (ffmpeg_cmd v p) (Some out) (Some err) /\
        captured_stderr e = Some err /\
        error_line E e
        = error_line E (CalledProcessError rc (ffmpeg_cmd v p) None None)
    | NotStarted errno strerror =>
        e = OSError errno strerror (Some (py "ffmpeg")) /\
        captured_stderr e = None
    end).
  { rewrite (transcribe_video_outcome _ _ _ _ _ Hp).
    destruct c as [errno strerror|rc out err].
    - eexists. split; [eapply try_block_tool_missing; exact Hc|].
      split; reflexivity.
    - eexists. split.
      + eapply try_block_tool_failed; [exact Hc|].
        intros ->. exact (Hfail out err eq_refl).
      + repeat split. }
  destruct He as (e & He & Hshape). exists e.
  split; [exact He|]. split; [exact Hshape|].
  destruct (main_reports_exception E prog v rest w e He) as (H1 & _ & H3).
  auto.
Qed.

(** C5. When the three steps succeed, the process exits with status 0
    and writes to standard output one line: the JSON object with
    exactly the members [transcript] and [language], strings, and
    [language_probability] and [duration], numbers, in this order. The
    line is printable ASCII throughout, so it has no line break of its
    own, provided [float.__repr__] writes printable ASCII. *)
Theorem success_output E prog v rest w p segs info :
  pipeline_succeeds E v (hd (py "base") rest) w p segs info ->
  (forall f, Forall printable (float_repr E f)) ->
  exists line,
    fst (main E (prog :: v :: rest) w) = 0%Z /\
    stdout (snd (main E (prog :: v :: rest) w)) = stdout w ++ line ++ [0x0A] /\
    stderr (snd (main E (prog :: v :: rest) w)) = stderr w /\
    Forall printable line /\
    line = json_dumps E
             [ (py "transcript",
                VStr (join (py " ") (map strip (map text segs))));
               (py "language", VStr (language info));
               (py "language_probability",
                VFloat (language_probability info));
               (py "duration", VFloat (duration info)) ].
Proof.
  intros H Hrepr. rewrite main_run_pipeline.
  pose proof (transcribe_video_success _ _ _ _ _ _ _ H) as Hok.
  rewrite (run_pipeline_ok _ _ _ _ _ Hok). simpl.
  destruct (transcribe_video_streams E v (hd (py "base") rest) w) as [Ho He].
  rewrite Ho, He. exists (json_dumps E (result_of segs info)).
  split; [reflexivity|]. split; [reflexivity|]. split; [reflexivity|]. split.
  - apply json_dumps_printable, Hrepr.
  - unfold result_of. rewrite map_map. reflexivity.
Qed.

(** C6. With fewer than one positional argument the process exits with
    status 1 and writes to standard error the JSON object whose [error]
    member is the usage message; no file is created and no call is made
    before that. *)
Theorem usage_error E argv w :
  (length argv < 2)%nat ->
  main E argv w = (1%Z, write_stderr (usage ++ [0x0A]) w) /\
  loads_error usage
  = Some (py "Usage: transcribe.py <video_path> [model_size]") /\
  calls (snd (main E argv w)) = calls w /\
  files (snd (main E argv w)) = files w /\
  stdout (snd (main E argv w)) = stdout w.
Proof.
  intros H. unfold main.
  destruct (length argv <? 2)%nat eqn:Hlen;
    [|apply Nat.ltb_ge in Hlen; lia].
  repeat split.
Qed.

(** C7. In every call, whatever the arguments, the model is loaded only
    with the given size, on the device [cpu] with compute type [int8],
    and inference is run only with beam size 5 on the temporary file.
    A call that returns a result has done both; a call whose tool
    exits with status 0 loads the model, and runs inference once the
    model has loaded. *)
Theorem model_parameters_fixed E v m w :
  exists new,
    calls (snd (transcribe_video E v m w)) = calls w ++ new /\
    (forall size dev ct, call_WhisperModel size dev ct ∈ new ->
       size = m /\ dev = py "cpu" /\ ct = py "int8") /\
    (forall audio beam, call_transcribe audio beam ∈ new ->
       beam = 5%Z /\ mkstemp E (py ".wav") (files w) = inr audio) /\
    (forall d, fst (transcribe_video E v m w) = Ok d ->
       call_WhisperModel m (py "cpu") (py "int8") ∈ new /\
       exists audio, call_transcribe audio 5 ∈ new) /\
    (forall p out err fs1,
       mkstemp E (py ".wav") (files w) = inr p ->
       spawn E (ffmpeg_cmd v p) ({[p]} ∪ files w) = (Exited 0 out err, fs1) ->
       call_WhisperModel m (py "cpu") (py "int8") ∈ new /\
       forall fs2,
         load_model E m (py "cpu") (py "int8") fs1 = (None, fs2) ->
         call_transcribe p 5 ∈ new).
Proof.
  destruct (transcribe_video_calls_in E v m w)
    as (new & Hc & Hin & Hok & Hreach).
  exists new. split; [exact Hc|].
  split; [|split; [|split; [exact Hok | exact Hreach]]].
  - intros size dev ct Hc'. apply Hin in Hc'.
    destruct Hc' as [(? & ? & H)|[(? & ? & ? & H)|[(? & H)|[H|(? & _ & H)]]]];
      try discriminate.
    injection H as -> -> ->. auto.
  - intros audio beam Hc'. apply Hin in Hc'.
    destruct Hc' as [(? & ? & H)|[(? & ? & ? & H)|[(? & H)|[H|(? & Hp & H)]]]];
      try discriminate.
    injection H as -> ->. auto.
Qed.

(** C8. In every call, a child is started only for the media tool, with
    exactly the arguments that select no video, PCM 16-bit little-endian
    audio, 16000 Hz, one channel and forced overwrite, and the temporary
    path as output; once the temporary file is created, the tool is
    started exactly once. *)
Theorem ffmpeg_invocation E v m w :
  exists new,
    calls (snd (transcribe_video E v m w)) = calls w ++ new /\
    (forall args, args ∈ subprocess_calls new ->
       exists p,
         mkstemp E (py ".wav") (files w) = inr p /\
         args = [py "ffmpeg"; py "-i"; v; py "-vn"; py "-acodec";
                 py "pcm_s16le"; py "-ar"; py "16000"; py "-ac"; py "1";
                 py "-y"; p]) /\
    (forall p,
       mkstemp E (py ".wav") (files w) = inr p ->
       subprocess_calls new
       = [[py "ffmpeg"; py "-i"; v; py "-vn"; py "-acodec"; py "pcm_s16le";
           py "-ar"; py "16000"; py "-ac"; py "1"; py "-y"; p]]).
Proof.
  destruct (mkstemp E (py ".wav") (files w)) as [e|p] eqn:Hp.
  - rewrite (transcribe_video_no_tempfile _ _ _ _ _ Hp). simpl.
    exists [call_NamedTemporaryFile (py ".wav") false].
    split; [reflexivity|]. split; [|discriminate].
    intros args Hin. apply elem_of_nil in Hin. contradiction.
  - destruct (transcribe_video_calls E v m w p Hp)
      as (steps & cleanup & Hc & Hsteps & Hcleanup & _ & _).
    eexists. split; [exact Hc|].
    assert (Hsub : subprocess_calls
                     ([call_NamedTemporaryFile (py ".wav") false;
                       call_subprocess_run (ffmpeg_cmd v p) true true]
                      ++ steps ++ cleanup)
                   = [ffmpeg_cmd v p]).
    { destruct Hsteps as [-> | [-> | ->]]; destruct Hcleanup as [-> | ->];
        reflexivity. }
    rewrite Hsub. split.
    + intros args Hin. apply list_elem_of_singleton in Hin. subst args.
      exists p. split; reflexivity.
    + intros q [= <-]. reflexivity.
Qed.

(** C9. With exactly one positional argument the pipeline uses the
    model size [base]: in a run whose temporary file is created and
    whose tool exits with status 0, the model is loaded with [base] and
    with no other size. A second positional argument, when present, is
    the model size as it stands: the model is then loaded with that
    argument and no other, whatever follows it on the command line. A
    call of [transcribe_video] that leaves the size out loads [base]
    as well. *)
Theorem model_size_argument E prog v w p out err fs1 :
  mkstemp E (py ".wav") (files w) = inr p ->
  spawn E (ffmpeg_cmd v p) ({[p]} ∪ files w) = (Exited 0 out err, fs1) ->
  (exists new,
     calls (snd (main E [prog; v] w)) = calls w ++ new /\
     call_WhisperModel (py "base") (py "cpu") (py "int8") ∈ new /\
     (forall size dev ct,
        call_WhisperModel size dev ct ∈ new -> size = py "base")) /\
  (forall m rest,
     exists new,
       calls (snd (main E (prog :: v :: m :: rest) w)) = calls w ++ new /\
       call_WhisperModel m (py "cpu") (py "int8") ∈ new /\
       (forall size dev ct,
          call_WhisperModel size dev ct ∈ new -> size = m)) /\
  (exists new,
     calls (snd (transcribe_video_default E v w)) = calls w ++ new /\
     call_WhisperModel (py "base") (py "cpu") (py "int8") ∈ new /\
     (forall size dev ct,
        call_WhisperModel size dev ct ∈ new -> size = py "base")).
Proof.
  intros Hp Hs. split; [|split].
  - rewrite main_run_pipeline, run_pipeline_calls. cbn [hd].
    exact (transcribe_video_loads_size E v (py "base") w p out err fs1 Hp Hs).
  - intros m rest. rewrite main_run_pipeline, run_pipeline_calls. cbn [hd].
    exact (transcribe_video_loads_size E v m w p out err fs1 Hp Hs).
  - exact (transcribe_video_loads_size E v (py "base") w p out err fs1 Hp Hs).
Qed.

(** C10. A run that fails, by a usage error or by an exception of the
    pipeline, writes nothing to standard output: it exits with status 1
    and its only output is one line on standard error. *)
Theorem failure_leaves_stdout E (argv : list pystr) w :
  ((length argv < 2)%nat \/
   exists e,
     fst (transcribe_video E (nth 1 argv [])
            (if (2 <? length argv)%nat then nth 2 argv [] else py "base") w)
     = Raised e) ->
  stdout (snd (main E argv w)) = stdout w /\
  fst (main E argv w) = 1%Z /\
  exists line, stderr (snd (main E argv w)) = stderr w ++ line ++ [0x0A].
Proof.
  intros H. unfold main.
  destruct (length argv <? 2)%nat eqn:Hlen.
  - simpl. split; [reflexivity|]. split; [reflexivity|].
    exists usage. reflexivity.
  - destruct H as [H|[e He]]; [apply Nat.ltb_ge in Hlen; lia|].
    rewrite (run_pipeline_raised _ _ _ _ _ He). simpl.
    destruct (transcribe_video_streams E (nth 1 argv [])
                (if (2 <? length argv)%nat then nth 2 argv [] else py "base") w)
      as [Ho Herr].
    rewrite Ho, Herr. split; [reflexivity|]. split; [reflexivity|].
    exists (error_line E e). reflexivity.
Qed.

(** * The claims on the sample platforms *)

Lemma env_ok_succeeds v m :
  pipeline_succeeds env_ok v m world0 sample_tmp
    [ {| text := py "Hello " |}; {| text := py " world" |} ] sample_info.
Proof.
  split; [reflexivity|].
  exists [], [], ({[sample_tmp]} ∪ ({[sample_tmp]} ∪ ∅)),
    ({[sample_tmp]} ∪ ({[sample_tmp]} ∪ ∅)),
    ({[sample_tmp]} ∪ ({[sample_tmp]} ∪ ∅)).
  repeat split.
Defined.

Lemma env_silence_succeeds v m :
  pipeline_succeeds env_silence v m world0 sample_tmp [] sample_info.
Proof.
  split; [reflexivity|].
  exists [], [], ({[sample_tmp]} ∪ ({[sample_tmp]} ∪ ∅)),
    ({[sample_tmp]} ∪ ({[sample_tmp]} ∪ ∅)),
    ({[sample_tmp]} ∪ ({[sample_tmp]} ∪ ∅)).
  repeat split.
Defined.

Lemma env_ok_float_repr f : Forall printable (float_repr env_ok f).
Proof.
  assert (H : float_repr env_ok f = py "0.5" \/ float_repr env_ok f = py "2.5"
              \/ float_repr env_ok f = py "0.0").
  { simpl. repeat case_match; auto. }
  destruct H as [-> | [-> | ->]]; apply lit_printable; reflexivity.
Defined.

(** The file is removed when inference raises after one segment. *)
Lemma temp_file_removed_witness :
  mkstemp env_inference_fails (py ".wav") (files world0) = inr sample_tmp /\
  sample_tmp ∉ files (snd (transcribe_video env_inference_fails
                             (py "clip.mp4") (py "base") world0)).
Proof.
  split; [reflexivity|].
  apply (temp_file_removed env_inference_fails (py "clip.mp4") (py "base")
           world0 sample_tmp).
  reflexivity.
Defined.

(** The two segments of the sample give [Hello world]; no segment gives
    the empty string. *)
Lemma transcript_joined_witness :
  (pipeline_succeeds env_ok (py "clip.mp4") (py "base") world0 sample_tmp
     [ {| text := py "Hello " |}; {| text := py " world" |} ] sample_info /\
   exists d,
     fst (transcribe_video env_ok (py "clip.mp4") (py "base") world0) = Ok d /\
     field (py "transcript") d = Some (VStr (py "Hello world"))) /\
  (pipeline_succeeds env_silence (py "clip.mp4") (py "base") world0 sample_tmp
     [] sample_info /\
   exists d,
     fst (transcribe_video env_silence (py "clip.mp4") (py "base") world0)
     = Ok d /\
     field (py "transcript") d = Some (VStr [])).
Proof.
  split; (split; [apply env_ok_succeeds || apply env_silence_succeeds|]).
  - exact (transcript_joined env_ok (py "clip.mp4") (py "base") world0
             sample_tmp _ sample_info (env_ok_succeeds _ _)).
  - exact (transcript_joined env_silence (py "clip.mp4") (py "base") world0
             sample_tmp _ sample_info (env_silence_succeeds _ _)).
Defined.

Lemma usage_error_witness :
  (length [py "transcribe.py"] < 2)%nat /\
  main env_ok [py "transcribe.py"] world0
  = (1%Z, write_stderr (usage ++ [0x0A]) world0) /\
  loads_error usage
  = Some (py "Usage: transcribe.py <video_path> [model_size]") /\
  calls (snd (main env_ok [py "transcribe.py"] world0)) = [] /\
  files (snd (main env_ok [py "transcribe.py"] world0)) = ∅ /\
  stdout (snd (main env_ok [py "transcribe.py"] world0)) = [].
Proof.
  split; [simpl; lia|].
  apply (usage_error env_ok [py "transcribe.py"] world0). simpl. lia.
Defined.

Lemma ffmpeg_invocation_sample :
  exists new,
    calls (snd (transcribe_video env_ffmpeg_fails (py "clip.mp4") (py "tiny")
                  world0)) = new /\
    subprocess_calls new
    = [[py "ffmpeg"; py "-i"; py "clip.mp4"; py "-vn"; py "-acodec";
        py "pcm_s16le"; py "-ar"; py "16000"; py "-ac"; py "1"; py "-y";
        sample_tmp]].
Proof. eexists. split; reflexivity. Qed.

(** One argument loads [base]; a second one is the size loaded. *)
Lemma model_size_argument_witness :
  mkstemp env_ok (py ".wav") (files world0) = inr sample_tmp /\
  spawn env_ok (ffmpeg_cmd (py "clip.mp4") sample_tmp)
    ({[sample_tmp]} ∪ files world0)
  = (Exited 0 [] [], {[sample_tmp]} ∪ ({[sample_tmp]} ∪ ∅)) /\
  (exists new,
     calls (snd (main env_ok [py "transcribe.py"; py "clip.mp4"] world0))
     = [] ++ new /\
     call_WhisperModel (py "base") (py "cpu") (py "int8") ∈ new /\
     (forall size dev ct,
        call_WhisperModel size dev ct ∈ new -> size = py "base")) /\
  (forall m rest,
     exists new,
       calls (snd (main env_ok
                     (py "transcribe.py" :: py "clip.mp4" :: m :: rest)
                     world0))
       = [] ++ new /\
       call_WhisperModel m (py "cpu") (py "int8") ∈ new /\
       (forall size dev ct,
          call_WhisperModel size dev ct ∈ new -> size = m)) /\
  (exists new,
     calls (snd (transcribe_video_default env_ok (py "clip.mp4") world0))
     = [] ++ new /\
     call_WhisperModel (py "base") (py "cpu") (py "int8") ∈ new /\
     (forall size dev ct,
        call_WhisperModel size dev ct ∈ new -> size = py "base")).
Proof.
  split; [reflexivity|]. split; [reflexivity|].
  exact (model_size_argument env_ok (py "transcribe.py") (py "clip.mp4")
           world0 sample_tmp [] [] ({[sample_tmp]} ∪ ({[sample_tmp]} ∪ ∅))
           eq_refl eq_refl).
Defined.

(** The calls of a run with the size [tiny] and a further argument. *)
Example model_size_tiny_calls :
  calls (snd (main env_ok
                [py "transcribe.py"; py "clip.mp4"; py "tiny"; py "extra"]
                world0))
  = [call_NamedTemporaryFile (py ".wav") false;
     call_subprocess_run (ffmpeg_cmd (py "clip.mp4") sample_tmp) true true;
     call_WhisperModel (py "tiny") (py "cpu") (py "int8");
     call_transcribe sample_tmp 5;
     call_unlink sample_tmp].
Proof. reflexivity. Qed.

Lemma failure_leaves_stdout_witness :
  fst (transcribe_video env_no_ffmpeg (py "clip.mp4") (py "base") world0)
  = Raised (OSError 2 (py "No such file or directory") (Some (py "ffmpeg"))) /\
  stdout (snd (main env_no_ffmpeg [py "transcribe.py"; py "clip.mp4"] world0))
  = [] /\
  fst (main env_no_ffmpeg [py "transcribe.py"; py "clip.mp4"] world0) = 1%Z /\
  exists line,
    stderr (snd (main env_no_ffmpeg [py "transcribe.py"; py "clip.mp4"] world0))
    = [] ++ line ++ [0x0A].
Proof.
  split; [reflexivity|].
  apply (failure_leaves_stdout env_no_ffmpeg
           [py "transcribe.py"; py "clip.mp4"] world0).
  right. exists (OSError 2 (py "No such file or directory") (Some (py "ffmpeg"))).
  reflexivity.
Defined.

Lemma success_output_witness :
  pipeline_succeeds env_ok (py "clip.mp4") (py "base") world0 sample_tmp
    [ {| text := py "Hello " |}; {| text := py " world" |} ] sample_info /\
  (forall f, Forall printable (float_repr env_ok f)) /\
  exists line,
    fst (main env_ok [py "transcribe.py"; py "clip.mp4"] world0) = 0%Z /\
    stdout (snd (main env_ok [py "transcribe.py"; py "clip.mp4"] world0))
    = [] ++ line ++ [0x0A] /\
    stderr (snd (main env_ok [py "transcribe.py"; py "clip.mp4"] world0)) = [] /\
    Forall printable line /\
    line = quoted "{`transcript`: `Hello world`, `language`: `en`, `language_probability`: 0.5, `duration`: 2.5}".
Proof.
  split; [apply env_ok_succeeds|]. split; [apply env_ok_float_repr|].
  exact (success_output env_ok (py "transcribe.py") (py "clip.mp4") []
           world0 sample_tmp _ sample_info (env_ok_succeeds _ _)
           env_ok_float_repr).
Defined.

Lemma extraction_failure_witness :
  mkstemp env_ffmpeg_fails (py ".wav") (files world0) = inr sample_tmp /\
  spawn env_ffmpeg_fails (ffmpeg_cmd (py "nope.mp4") sample_tmp)
    ({[sample_tmp]} ∪ files world0)
  = (Exited 1 [] sample_tool_stderr, {[sample_tmp]} ∪ ({[sample_tmp]} ∪ ∅)) /\
  exists e,
    fst (transcribe_video env_ffmpeg_fails (py "nope.mp4") (py "base") world0)
    = Raised e /\
    (e = CalledProcessError 1 (ffmpeg_cmd (py "nope.mp4") sample_tmp)
           (Some []) (Some sample_tool_stderr) /\
     captured_stderr e = Some sample_tool_stderr /\
     error_line env_ffmpeg_fails e
     = error_line env_ffmpeg_fails
         (CalledProcessError 1 (ffmpeg_cmd (py "nope.mp4") sample_tmp)
            None None)) /\
    fst (main env_ffmpeg_fails [py "transcribe.py"; py "nope.mp4"] world0)
    = 1%Z /\
    stderr (snd (main env_ffmpeg_fails [py "transcribe.py"; py "nope.mp4"]
                   world0))
    = [] ++ error_line env_ffmpeg_fails e ++ [0x0A].
Proof.
  split; [reflexivity|]. split; [reflexivity|].
  apply (extraction_failure env_ffmpeg_fails (py "transcribe.py")
           (py "nope.mp4") [] world0 sample_tmp
           (Exited 1 [] sample_tool_stderr)
           ({[sample_tmp]} ∪ ({[sample_tmp]} ∪ ∅))).
  - reflexivity.
  - reflexivity.
  - intros out err H. discriminate H.
Defined.

(** * Further properties of the script *)

(** ** How one call runs *)

(** The [finally] clause, computed. *)
Lemma finally_block_run p w :
  finally_block p w
  = (Ok tt,
     if bool_decide (p ∈ files w)
     then set_files (files w ∖ {[p]}) (log (call_unlink p) w)
     else w).
Proof.
  unfold_run. destruct (bool_decide (p ∈ files w)) eqn:Hp;
    [rewrite Hp|]; reflexivity.
Qed.

(** A call whose temporary file exists ends as its [try] block does,
    in the state the [finally] clause makes of the block's. *)
Lemma transcribe_video_run E v m w p r w1 :
  mkstemp E (py ".wav") (files w) = inr p ->
  try_block E v m p
    (set_files ({[p]} ∪ files w)
       (log (call_NamedTemporaryFile (py ".wav") false) w)) = (r, w1) ->
  transcribe_video E v m w
  = (r, if bool_decide (p ∈ files w1)
        then set_files (files w1 ∖ {[p]}) (log (call_unlink p) w1)
        else w1).
Proof.
  intros Hp Hb. rewrite (transcribe_video_tempfile _ _ _ _ _ Hp).
  unfold try_finally. rewrite Hb, finally_block_run. reflexivity.
Qed.

Lemma calls_cleanup p w1 :
  calls (if bool_decide (p ∈ files w1)
         then set_files (files w1 ∖ {[p]}) (log (call_unlink p) w1)
         else w1)
  = calls w1 ++ (if bool_decide (p ∈ files w1) then [call_unlink p] else []).
Proof.
  destruct (bool_decide (p ∈ files w1)); simpl;
    [reflexivity | rewrite app_nil_r; reflexivity].
Qed.

Lemma difference_absent (p : pystr) (fs : gset pystr) :
  p ∉ fs -> fs = fs ∖ {[p]}.
Proof.
  intros Hp. apply set_eq. intros q.
  rewrite elem_of_difference, elem_of_singleton.
  split; [intros Hq; split; [exact Hq | intros ->; contradiction] | tauto].
Qed.

(** What a call leaves, from what its [try] block leaves. *)
Lemma transcribe_video_after E v m w p r w1 :
  mkstemp E (py ".wav") (files w) = inr p ->
  try_block E v m p
    (set_files ({[p]} ∪ files w)
       (log (call_NamedTemporaryFile (py ".wav") false) w)) = (r, w1) ->
  fst (transcribe_video E v m w) = r /\
  files (snd (transcribe_video E v m w)) = files w1 ∖ {[p]} /\
  calls (snd (transcribe_video E v m w))
  = calls w1 ++ (if bool_decide (p ∈ files w1) then [call_unlink p] else []) /\
  stdout (snd (transcribe_video E v m w)) = stdout w1 /\
  stderr (snd (transcribe_video E v m w)) = stderr w1.
Proof.
  intros Hp Hb. rewrite (transcribe_video_run _ _ _ _ _ _ _ Hp Hb).
  cbn [fst snd]. rewrite calls_cleanup.
  destruct (bool_decide (p ∈ files w1)) eqn:Hin; simpl;
    [auto 6|].
  apply bool_decide_eq_false in Hin.
  split; [reflexivity|]. split; [apply difference_absent, Hin | auto].
Qed.

(** The [try] block when the tool does not exit with status 0. *)
Lemma try_block_not_ok E v m p w c fs1 :
  spawn E (ffmpeg_cmd v p) (files w) = (c, fs1) ->
  (forall out err, c <> Exited 0 out err) ->
  exists e,
    try_block E v m p w
    = (Raised e,
       set_files fs1 (log (call_subprocess_run (ffmpeg_cmd v p) true true) w)).
Proof.
  intros Hs Hc. unfold_run. rewrite Hs.
  destruct c as [errno strerror|rc out err]; simpl; [eexists; reflexivity|].
  destruct (rc =? 0)%Z eqn:Hrc; simpl; [|eexists; reflexivity].
  apply Z.eqb_eq in Hrc. subst rc. destruct (Hc out err eq_refl).
Qed.

(** The [try] block when the model does not load. *)
Lemma try_block_load_fails E v m p w out err fs1 e fs2 :
  spawn E (ffmpeg_cmd v p) (files w) = (Exited 0 out err, fs1) ->
  load_model E m (py "cpu") (py "int8") fs1 = (Some e, fs2) ->
  try_block E v m p w
  = (Raised e,
     set_files fs2
       (log (call_WhisperModel m (py "cpu") (py "int8"))
          (set_files fs1
             (log (call_subprocess_run (ffmpeg_cmd v p) true true) w)))).
Proof.
  intros Hs Hl. unfold_run. rewrite Hs. simpl. rewrite Hl. reflexivity.
Qed.

(** The [try] block once the model is loaded: the inference is called,
    and the block ends as the loop over its segments does. *)
Lemma try_block_inference E v m p w out err fs1 fs2 r fs3 :
  spawn E (ffmpeg_cmd v p) (files w) = (Exited 0 out err, fs1) ->
  load_model E m (py "cpu") (py "int8") fs1 = (None, fs2) ->
  run_transcribe E
    {| model_size_or_path := m; device := py "cpu"; compute_type := py "int8" |}
    p 5 fs2 = (r, fs3) ->
  try_block E v m p w
  = (match r with
     | inl e => Raised e
     | inr (segments, info) =>
         match for_segments segments [] with
         | Ok parts =>
             Ok [ (py "transcript", VStr (join (py " ") parts));
                  (py "language", VStr (language info));
                  (py "language_probability",
                   VFloat (language_probability info));
                  (py "duration", VFloat (duration info)) ]
         | Raised e => Raised e
         end
     end,
     set_files fs3
       (log (call_transcribe p 5)
          (set_files fs2
             (log (call_WhisperModel m (py "cpu") (py "int8"))
                (set_files fs1
                   (log (call_subprocess_run (ffmpeg_cmd v p) true true)
                      w)))))).
Proof.
  intros Hs Hl Ht. unfold_run. rewrite Hs. simpl. rewrite Hl. simpl.
  rewrite Ht. simpl. destruct r as [e|[g info]]; simpl; [reflexivity|].
  destruct (for_segments g []); reflexivity.
Qed.

(** ** The steps of a call, one failure at a time *)

(** X1. When the tool does not exit with status 0, the call raises
    without loading the model or running inference: after the
    temporary file and the tool, the only call left is the removal, made
    exactly when the tool left a file at the temporary path; the files
    are those the tool left, the temporary path aside. *)
Theorem failed_extraction_stops E v m w p c fs1 :
  mkstemp E (py ".wav") (files w) = inr p ->
  spawn E (ffmpeg_cmd v p) ({[p]} ∪ files w) = (c, fs1) ->
  (forall out err, c <> Exited 0 out err) ->
  (exists e, fst (transcribe_video E v m w) = Raised e) /\
  calls (snd (transcribe_video E v m w))
  = calls w ++
    [call_NamedTemporaryFile (py ".wav") false;
     call_subprocess_run (ffmpeg_cmd v p) true true]
    ++ (if bool_decide (p ∈ fs1) then [call_unlink p] else []) /\
  files (snd (transcribe_video E v m w)) = fs1 ∖ {[p]}.
Proof.
  intros Hp Hs Hc.
  destruct (try_block_not_ok E v m p
              (set_files ({[p]} ∪ files w)
                 (log (call_NamedTemporaryFile (py ".wav") false) w))
              c fs1 Hs Hc) as [e He].
  destruct (transcribe_video_after E v m w p _ _ Hp He)
    as (Hr & Hf & Hcalls & _ & _).
  split; [exists e; exact Hr|]. split; [|exact Hf].
  rewrite Hcalls. simpl. rewrite <- !app_assoc. reflexivity.
Qed.

Lemma failed_extraction_stops_witness :
  mkstemp env_ffmpeg_fails (py ".wav") (files world0) = inr sample_tmp /\
  (exists e,
     fst (transcribe_video env_ffmpeg_fails (py "nope.mp4") (py "base") world0)
     = Raised e) /\
  calls (snd (transcribe_video env_ffmpeg_fails (py "nope.mp4") (py "base")
                world0))
  = [call_NamedTemporaryFile (py ".wav") false;
     call_subprocess_run (ffmpeg_cmd (py "nope.mp4") sample_tmp) true true;
     call_unlink sample_tmp] /\
  files (snd (transcribe_video env_ffmpeg_fails (py "nope.mp4") (py "base")
                world0))
  = ({[sample_tmp]} ∪ ({[sample_tmp]} ∪ ∅)) ∖ {[sample_tmp]}.
Proof.
  split; [reflexivity|].
  exact (failed_extraction_stops env_ffmpeg_fails (py "nope.mp4") (py "base")
           world0 sample_tmp (Exited 1 [] sample_tool_stderr)
           ({[sample_tmp]} ∪ ({[sample_tmp]} ∪ ∅)) eq_refl eq_refl
           (fun out err H => eq_ind (Exited 1 [] sample_tool_stderr)
              (fun c => match c with
                        | Exited 1 _ _ => True
                        | _ => False
                        end) I _ H)).
Defined.

(** X2. When the model does not load, the call raises the loader's own
    exception and never runs inference; the temporary file is removed
    if it is still there, and the files are those the loader left, the
    temporary path aside. *)
Theorem model_load_failure E v m w p out err fs1 e fs2 :
  mkstemp E (py ".wav") (files w) = inr p ->
  spawn E (ffmpeg_cmd v p) ({[p]} ∪ files w) = (Exited 0 out err, fs1) ->
  load_model E m (py "cpu") (py "int8") fs1 = (Some e, fs2) ->
  fst (transcribe_video E v m w) = Raised e /\
  calls (snd (transcribe_video E v m w))
  = calls w ++
    [call_NamedTemporaryFile (py ".wav") false;
     call_subprocess_run (ffmpeg_cmd v p) true true;
     call_WhisperModel m (py "cpu") (py "int8")]
    ++ (if bool_decide (p ∈ fs2) then [call_unlink p] else []) /\
  files (snd (transcribe_video E v m w)) = fs2 ∖ {[p]}.
Proof.
  intros Hp Hs Hl.
  pose proof (try_block_load_fails E v m p
                (set_files ({[p]} ∪ files w)
                   (log (call_NamedTemporaryFile (py ".wav") false) w))
                out err fs1 e fs2 Hs Hl) as Hb.
  destruct (transcribe_video_after E v m w p _ _ Hp Hb)
    as (Hr & Hf & Hcalls & _ & _).
  split; [exact Hr|]. split; [|exact Hf].
  rewrite Hcalls. simpl. rewrite <- !app_assoc. reflexivity.
Qed.

Lemma model_load_failure_witness :
  mkstemp env_model_fails (py ".wav") (files world0) = inr sample_tmp /\
  fst (transcribe_video env_model_fails (py "clip.mp4") (py "huge") world0)
  = Raised (Exception (py "Invalid model size 'huge'")) /\
  calls (snd (transcribe_video env_model_fails (py "clip.mp4") (py "huge")
                world0))
  = [call_NamedTemporaryFile (py ".wav") false;
     call_subprocess_run (ffmpeg_cmd (py "clip.mp4") sample_tmp) true true;
     call_WhisperModel (py "huge") (py "cpu") (py "int8");
     call_unlink sample_tmp] /\
  files (snd (transcribe_video env_model_fails (py "clip.mp4") (py "huge")
                world0))
  = ({[sample_tmp]} ∪ ({[sample_tmp]} ∪ ∅)) ∖ {[sample_tmp]}.
Proof.
  split; [reflexivity|].
  exact (model_load_failure env_model_fails (py "clip.mp4") (py "huge")
           world0 sample_tmp [] [] ({[sample_tmp]} ∪ ({[sample_tmp]} ∪ ∅))
           (Exception (py "Invalid model size 'huge'"))
           ({[sample_tmp]} ∪ ({[sample_tmp]} ∪ ∅))
           eq_refl eq_refl eq_refl).
Defined.

(** X3. When inference fails, at the call or while the segments are
    read, however many segments were read before, the call raises that
    exception and returns no partial transcript; the four calls were
    made in order and the temporary file is removed if it is still
    there. *)
Theorem inference_failure E v m w p out err fs1 fs2 r fs3 e :
  mkstemp E (py ".wav") (files w) = inr p ->
  spawn E (ffmpeg_cmd v p) ({[p]} ∪ files w) = (Exited 0 out err, fs1) ->
  load_model E m (py "cpu") (py "int8") fs1 = (None, fs2) ->
  run_transcribe E
    {| model_size_or_path := m; device := py "cpu"; compute_type := py "int8" |}
    p 5 fs2 = (r, fs3) ->
  (r = inl e \/
   exists segs info, r = inr (fold_right Yield (Throw e) segs, info)) ->
  fst (transcribe_video E v m w) = Raised e /\
  calls (snd (transcribe_video E v m w))
  = calls w ++
    [call_NamedTemporaryFile (py ".wav") false;
     call_subprocess_run (ffmpeg_cmd v p) true true;
     call_WhisperModel m (py "cpu") (py "int8");
     call_transcribe p 5]
    ++ (if bool_decide (p ∈ fs3) then [call_unlink p] else []) /\
  files (snd (transcribe_video E v m w)) = fs3 ∖ {[p]}.
Proof.
  intros Hp Hs Hl Ht Hr.
  pose proof (try_block_inference E v m p
                (set_files ({[p]} ∪ files w)
                   (log (call_NamedTemporaryFile (py ".wav") false) w))
                out err fs1 fs2 r fs3 Hs Hl Ht) as Hb.
  destruct (transcribe_video_after E v m w p _ _ Hp Hb)
    as (Hout & Hf & Hcalls & _ & _).
  split; [|split; [|exact Hf]].
  - rewrite Hout. destruct Hr as [-> | (segs & info & ->)]; [reflexivity|].
    rewrite for_segments_raises. reflexivity.
  - rewrite Hcalls. simpl. rewrite <- !app_assoc. reflexivity.
Qed.

Lemma inference_failure_witness :
  mkstemp env_inference_fails (py ".wav") (files world0) = inr sample_tmp /\
  fst (transcribe_video env_inference_fails (py "clip.mp4") (py "base") world0)
  = Raised (Exception (py "CUDA failed with error out of memory")) /\
  calls (snd (transcribe_video env_inference_fails (py "clip.mp4") (py "base")
                world0))
  = [call_NamedTemporaryFile (py ".wav") false;
     call_subprocess_run (ffmpeg_cmd (py "clip.mp4") sample_tmp) true true;
     call_WhisperModel (py "base") (py "cpu") (py "int8");
     call_transcribe sample_tmp 5;
     call_unlink sample_tmp] /\
  files (snd (transcribe_video env_inference_fails (py "clip.mp4") (py "base")
                world0))
  = ({[sample_tmp]} ∪ ({[sample_tmp]} ∪ ∅)) ∖ {[sample_tmp]}.
Proof.
  split; [reflexivity|].
  exact (inference_failure env_inference_fails (py "clip.mp4") (py "base")
           world0 sample_tmp [] [] ({[sample_tmp]} ∪ ({[sample_tmp]} ∪ ∅))
           ({[sample_tmp]} ∪ ({[sample_tmp]} ∪ ∅))
           (inr (Yield {| text := py "Hello " |}
                   (Throw (Exception
                             (py "CUDA failed with error out of memory"))),
                 sample_info))
           ({[sample_tmp]} ∪ ({[sample_tmp]} ∪ ∅))
           (Exception (py "CUDA failed with error out of memory"))
           eq_refl eq_refl eq_refl eq_refl
           (or_intror (ex_intro _ [ {| text := py "Hello " |} ]
                         (ex_intro _ sample_info eq_refl)))).
Defined.

(** X4. When every step succeeds, the outside calls of the call are, in
    this order and once each: the temporary file, the tool, the model,
    the inference, and the removal when the file is still there; both
    streams are as before, and the files are those inference left, the
    temporary path aside. *)
Theorem successful_call E v m w p out err fs1 fs2 fs3 segs info :
  mkstemp E (py ".wav") (files w) = inr p ->
  spawn E (ffmpeg_cmd v p) ({[p]} ∪ files w) = (Exited 0 out err, fs1) ->
  load_model E m (py "cpu") (py "int8") fs1 = (None, fs2) ->
  run_transcribe E
    {| model_size_or_path := m; device := py "cpu"; compute_type := py "int8" |}
    p 5 fs2 = (inr (generator_of segs, info), fs3) ->
  (exists d, fst (transcribe_video E v m w) = Ok d) /\
  calls (snd (transcribe_video E v m w))
  = calls w ++
    [call_NamedTemporaryFile (py ".wav") false;
     call_subprocess_run (ffmpeg_cmd v p) true true;
     call_WhisperModel m (py "cpu") (py "int8");
     call_transcribe p 5]
    ++ (if bool_decide (p ∈ fs3) then [call_unlink p] else []) /\
  files (snd (transcribe_video E v m w)) = fs3 ∖ {[p]} /\
  stdout (snd (transcribe_video E v m w)) = stdout w /\
  stderr (snd (transcribe_video E v m w)) = stderr w.
Proof.
  intros Hp Hs Hl Ht.
  pose proof (try_block_inference E v m p
                (set_files ({[p]} ∪ files w)
                   (log (call_NamedTemporaryFile (py ".wav") false) w))
                out err fs1 fs2 _ fs3 Hs Hl Ht) as Hb.
  destruct (transcribe_video_after E v m w p _ _ Hp Hb)
    as (Hout & Hf & Hcalls & Ho & He).
  split; [|split; [|split; [exact Hf | split; [exact Ho | exact He]]]].
  - rewrite Hout, for_segments_generator_of. eexists. reflexivity.
  - rewrite Hcalls. simpl. rewrite <- !app_assoc. reflexivity.
Qed.

Lemma successful_call_witness :
  mkstemp env_ok (py ".wav") (files world0) = inr sample_tmp /\
  (exists d,
     fst (transcribe_video env_ok (py "clip.mp4") (py "base") world0) = Ok d) /\
  calls (snd (transcribe_video env_ok (py "clip.mp4") (py "base") world0))
  = [call_NamedTemporaryFile (py ".wav") false;
     call_subprocess_run (ffmpeg_cmd (py "clip.mp4") sample_tmp) true true;
     call_WhisperModel (py "base") (py "cpu") (py "int8");
     call_transcribe sample_tmp 5;
     call_unlink sample_tmp] /\
  files (snd (transcribe_video env_ok (py "clip.mp4") (py "base") world0))
  = ({[sample_tmp]} ∪ ({[sample_tmp]} ∪ ∅)) ∖ {[sample_tmp]} /\
  stdout (snd (transcribe_video env_ok (py "clip.mp4") (py "base") world0))
  = [] /\
  stderr (snd (transcribe_video env_ok (py "clip.mp4") (py "base") world0))
  = [].
Proof.
  split; [reflexivity|].
  exact (successful_call env_ok (py "clip.mp4") (py "base") world0 sample_tmp
           [] [] ({[sample_tmp]} ∪ ({[sample_tmp]} ∪ ∅))
           ({[sample_tmp]} ∪ ({[sample_tmp]} ∪ ∅))
           ({[sample_tmp]} ∪ ({[sample_tmp]} ∪ ∅))
           [ {| text := py "Hello " |}; {| text := py " world" |} ]
           sample_info eq_refl eq_refl eq_refl eq_refl).
Defined.

(** X5. When the temporary file cannot be created, the process exits
    with status 1 and the error line of that exception on standard
    error, having started no child, loaded no model and removed no
    file: the state is the one before, the attempt and the line
    aside. *)
Theorem tempfile_failure E prog v rest w e :
  mkstemp E (py ".wav") (files w) = inl e ->
  main E (prog :: v :: rest) w
  = (1%Z,
     write_stderr (error_line E e ++ [0x0A])
       (log (call_NamedTemporaryFile (py ".wav") false) w)).
Proof.
  intros Hp. rewrite main_run_pipeline. unfold run_pipeline.
  rewrite (transcribe_video_no_tempfile _ _ _ _ _ Hp). reflexivity.
Qed.

Lemma tempfile_failure_witness :
  mkstemp env_no_tempdir (py ".wav") (files world0)
  = inl (OSError 2 (py "No usable temporary directory found") None) /\
  main env_no_tempdir [py "transcribe.py"; py "clip.mp4"] world0
  = (1%Z,
     {| files := ∅; stdout := [];
        stderr := quoted "{`error`: `[Errno 2] No usable temporary directory found`}"
                  ++ [0x0A];
        calls := [call_NamedTemporaryFile (py ".wav") false] |}).
Proof.
  split; [reflexivity|].
  exact (tempfile_failure env_no_tempdir (py "transcribe.py") (py "clip.mp4")
           [] world0 (OSError 2 (py "No usable temporary directory found") None)
           eq_refl).
Defined.

(** X7. A call never calls [os.unlink] on any path but the temporary
    file it created itself, and on that at most once. *)
Theorem unlink_only_temp E v m w :
  exists new,
    calls (snd (transcribe_video E v m w)) = calls w ++ new /\
    (forall q, q ∈ unlink_calls new ->
       mkstemp E (py ".wav") (files w) = inr q) /\
    (length (unlink_calls new) <= 1)%nat.
Proof.
  destruct (mkstemp E (py ".wav") (files w)) as [e|p] eqn:Hp.
  - rewrite (transcribe_video_no_tempfile _ _ _ _ _ Hp). simpl.
    exists [call_NamedTemporaryFile (py ".wav") false].
    split; [reflexivity|]. split; [|simpl; lia].
    intros q Hq. apply elem_of_nil in Hq. contradiction.
  - destruct (transcribe_video_calls E v m w p Hp)
      as (steps & cleanup & Hc & Hsteps & Hcleanup & _ & _).
    eexists. split; [exact Hc|].
    destruct Hsteps as [-> | [-> | ->]]; destruct Hcleanup as [-> | ->];
      simpl; (split; [|lia]); intros q Hq;
      repeat (apply elem_of_cons in Hq as [Hq|Hq]; [subst q; reflexivity|]);
      apply elem_of_nil in Hq; contradiction.
Qed.

(** ** Files other than the temporary one *)

Lemma keeps_others_refl p fs : keeps_others p fs fs.
Proof. intros q _. tauto. Qed.

Lemma keeps_others_trans p fs1 fs2 fs3 :
  keeps_others p fs1 fs2 -> keeps_others p fs2 fs3 -> keeps_others p fs1 fs3.
Proof.
  intros H12 H23 q Hq. rewrite (H12 q Hq). apply (H23 q Hq).
Qed.

Lemma keeps_others_add p fs : keeps_others p fs ({[p]} ∪ fs).
Proof.
  intros q Hq. rewrite elem_of_union, elem_of_singleton. tauto.
Qed.

Lemma keeps_others_remove p fs : keeps_others p fs (fs ∖ {[p]}).
Proof.
  intros q Hq. rewrite elem_of_difference, elem_of_singleton. tauto.
Qed.

(** The [try] block changes the files only as its three collaborators
    do. *)
Lemma try_block_keeps_others E v m p w :
  (forall fs, keeps_others p fs (snd (spawn E (ffmpeg_cmd v p) fs))) ->
  (forall fs,
     keeps_others p fs (snd (load_model E m (py "cpu") (py "int8") fs))) ->
  (forall model fs,
     keeps_others p fs (snd (run_transcribe E model p 5 fs))) ->
  keeps_others p (files w) (files (snd (try_block E v m p w))).
Proof.
  intros Hspawn Hload Hrun. unfold_run.
  pose proof (Hspawn (files w)) as H1.
  destruct (spawn E _ _) as [[errno strerror|rc out err] fs1]; simpl in *;
    [exact H1|].
  destruct (rc =? 0)%Z; simpl; [|exact H1].
  pose proof (Hload fs1) as H2.
  destruct (load_model E _ _ _ _) as [[e|] fs2]; simpl in *;
    [exact (keeps_others_trans _ _ _ _ H1 H2)|].
  pose proof (Hrun {| model_size_or_path := m; device := py "cpu";
                      compute_type := py "int8" |} fs2) as H3.
  destruct (run_transcribe E _ _ _ _) as [[e|[g info]] fs3]; simpl in *;
    [|destruct (for_segments g [])];
    exact (keeps_others_trans _ _ _ _ H1 (keeps_others_trans _ _ _ _ H2 H3)).
Qed.

(** X8. When the tool, the model loader and the inference touch no path
    but the temporary one, a call leaves every other file as it was,
    however it ends: what the script itself adds and removes is the
    temporary file alone. *)
Theorem other_files_untouched E v m w p :
  mkstemp E (py ".wav") (files w) = inr p ->
  (forall fs, keeps_others p fs (snd (spawn E (ffmpeg_cmd v p) fs))) ->
  (forall fs,
     keeps_others p fs (snd (load_model E m (py "cpu") (py "int8") fs))) ->
  (forall model fs,
     keeps_others p fs (snd (run_transcribe E model p 5 fs))) ->
  forall q, q <> p ->
    (q ∈ files (snd (transcribe_video E v m w)) <-> q ∈ files w).
Proof.
  intros Hp Hspawn Hload Hrun.
  set (w0 := set_files ({[p]} ∪ files w)
               (log (call_NamedTemporaryFile (py ".wav") false) w)).
  destruct (try_block E v m p w0) as [r w1] eqn:Hb.
  destruct (transcribe_video_after E v m w p r w1 Hp Hb) as (_ & Hf & _).
  pose proof (try_block_keeps_others E v m p w0 Hspawn Hload Hrun) as Hk.
  rewrite Hb in Hk. simpl in Hk.
  assert (Hall : keeps_others p (files w)
                   (files (snd (transcribe_video E v m w)))).
  { rewrite Hf.
    eapply keeps_others_trans; [apply keeps_others_add|].
    eapply keeps_others_trans; [exact Hk | apply keeps_others_remove]. }
  intros q Hq. symmetry. apply (Hall q Hq).
Qed.

Lemma env_ok_spawn_keeps v fs :
  keeps_others sample_tmp fs
    (snd (spawn env_ok (ffmpeg_cmd v sample_tmp) fs)).
Proof. apply keeps_others_add. Defined.

Lemma other_files_untouched_witness :
  mkstemp env_inference_fails (py ".wav") (files world0) = inr sample_tmp /\
  forall q, q <> sample_tmp ->
    (q ∈ files (snd (transcribe_video env_inference_fails (py "clip.mp4")
                       (py "base") world0))
     <-> q ∈ files world0).
Proof.
  split; [reflexivity|].
  apply (other_files_untouched env_inference_fails (py "clip.mp4") (py "base")
           world0 sample_tmp).
  - reflexivity.
  - intros fs. apply env_ok_spawn_keeps.
  - intros fs. apply keeps_others_refl.
  - intros model fs. apply keeps_others_refl.
Defined.

(** ** The shape of the transcript *)

Lemma head_join sep (p : pystr) ps :
  p <> [] -> head (join sep (p :: ps)) = head p.
Proof.
  intros Hp. destruct p as [|c p]; [contradiction|].
  destruct ps; reflexivity.
Qed.

Lemma last_join sep (parts : list pystr) q :
  last parts = Some q -> q <> [] -> last (join sep parts) = last q.
Proof.
  induction parts as [|p ps IH]; [discriminate|].
  intros Hq Hne. destruct ps as [|p' ps].
  - injection Hq as ->. reflexivity.
  - change (join sep (p :: p' :: ps)) with (p ++ sep ++ join sep (p' :: ps)).
    rewrite app_assoc, last_app.
    rewrite (IH Hq Hne). destruct q as [|c q]; [contradiction|].
    destruct (last_is_Some (c :: q)) as [_ [x Hx]]; [discriminate|].
    rewrite Hx. reflexivity.
Qed.

Lemma join_blank (sep : pystr) (n : nat) :
  join sep (replicate n []) = concat (replicate (n - 1) sep).
Proof.
  induction n as [|n IH]; [reflexivity|].
  destruct n as [|n]; [reflexivity|].
  change (join sep (replicate (S (S n)) []))
    with ([] ++ sep ++ join sep (replicate (S n) [])).
  rewrite IH. simpl. rewrite Nat.sub_0_r. reflexivity.
Qed.

(** X9. When every segment has some text other than whitespace, the
    transcript of a successful call neither starts nor ends with
    whitespace. *)
Theorem transcript_trimmed E v m w p segs info :
  pipeline_succeeds E v m w p segs info ->
  Forall (fun s => strip (text s) <> []) segs ->
  exists d t,
    fst (transcribe_video E v m w) = Ok d /\
    field (py "transcript") d = Some (VStr t) /\
    (forall c, head t = Some c -> isspace c = false) /\
    (forall c, last t = Some c -> isspace c = false).
Proof.
  intros H Hvis.
  exists (result_of segs info),
    (join (py " ") (map (fun s => strip (text s)) segs)).
  split; [apply transcribe_video_success with p; exact H|].
  split; [reflexivity|]. split.
  - intros c. destruct Hvis as [|s segs Hs _]; [discriminate|].
    cbn [map]. rewrite head_join by exact Hs.
    destruct (strip_spec (text s)) as (_ & _ & _ & _ & _ & Hh & _). apply Hh.
  - intros c.
    destruct (last segs) as [s|] eqn:Hlast.
    + assert (Hs : strip (text s) <> []).
      { rewrite Forall_forall in Hvis. apply Hvis.
        apply last_Some_elem_of. exact Hlast. }
      rewrite (last_join _ _ (strip (text s)));
        [| apply last_Some in Hlast as [l' ->];
           rewrite map_app; apply last_snoc
         | exact Hs].
      destruct (strip_spec (text s)) as (_ & _ & _ & _ & _ & _ & Hl). apply Hl.
    + apply last_None in Hlast. subst segs. discriminate.
Qed.

Lemma transcript_trimmed_witness :
  pipeline_succeeds env_ok (py "clip.mp4") (py "base") world0 sample_tmp
    [ {| text := py "Hello " |}; {| text := py " world" |} ] sample_info /\
  Forall (fun s => strip (text s) <> [])
    [ {| text := py "Hello " |}; {| text := py " world" |} ] /\
  exists d t,
    fst (transcribe_video env_ok (py "clip.mp4") (py "base") world0) = Ok d /\
    field (py "transcript") d = Some (VStr t) /\
    (forall c, head t = Some c -> isspace c = false) /\
    (forall c, last t = Some c -> isspace c = false).
Proof.
  split; [apply env_ok_succeeds|].
  assert (Hvis : Forall (fun s => strip (text s) <> [])
                   [ {| text := py "Hello " |}; {| text := py " world" |} ]).
  { repeat constructor; discriminate. }
  split; [exact Hvis|].
  exact (transcript_trimmed env_ok (py "clip.mp4") (py "base") world0
           sample_tmp _ sample_info (env_ok_succeeds _ _) Hvis).
Defined.

Lemma map_strip_blank (segs : list Segment) :
  Forall (fun s => strip (text s) = []) segs ->
  map (fun s => strip (text s)) segs = replicate (length segs) [].
Proof.
  induction 1 as [|s segs Hs _ IH]; [reflexivity|].
  simpl. rewrite Hs, IH. reflexivity.
Qed.

(** X10. Segments that hold only whitespace are not dropped: [n] of
    them give a transcript of [n - 1] spaces, which is empty only for
    at most one segment. *)
Theorem blank_segments_transcript E v m w p segs info :
  pipeline_succeeds E v m w p segs info ->
  Forall (fun s => strip (text s) = []) segs ->
  exists d,
    fst (transcribe_video E v m w) = Ok d /\
    field (py "transcript") d
    = Some (VStr (replicate (length segs - 1) 0x20)).
Proof.
  intros H Hblank. exists (result_of segs info).
  split; [apply transcribe_video_success with p; exact H|].
  unfold result_of, field. cbn [find fst snd bool_decide].
  rewrite (map_strip_blank segs Hblank), join_blank.
  assert (Hc : forall k, concat (replicate k (py " ")) = replicate k 0x20).
  { induction k as [|k IH]; [reflexivity|]. simpl. rewrite IH. reflexivity. }
  rewrite Hc. reflexivity.
Qed.

Lemma env_blank_succeeds v m :
  pipeline_succeeds env_blank v m world0 sample_tmp blank_segments sample_info.
Proof.
  split; [reflexivity|].
  exists [], [], ({[sample_tmp]} ∪ ({[sample_tmp]} ∪ ∅)),
    ({[sample_tmp]} ∪ ({[sample_tmp]} ∪ ∅)),
    ({[sample_tmp]} ∪ ({[sample_tmp]} ∪ ∅)).
  repeat split.
Defined.

Lemma blank_segments_transcript_witness :
  pipeline_succeeds env_blank (py "clip.mp4") (py "base") world0 sample_tmp
    blank_segments sample_info /\
  Forall (fun s => strip (text s) = []) blank_segments /\
  exists d,
    fst (transcribe_video env_blank (py "clip.mp4") (py "base") world0) = Ok d /\
    field (py "transcript") d = Some (VStr (py "  ")).
Proof.
  split; [apply env_blank_succeeds|].
  assert (Hblank : Forall (fun s => strip (text s) = []) blank_segments).
  { repeat constructor. }
  split; [exact Hblank|].
  exact (blank_segments_transcript env_blank (py "clip.mp4") (py "base")
           world0 sample_tmp _ sample_info (env_blank_succeeds _ _) Hblank).
Defined.

(** ** What a reader of the two streams gets back *)

(** X11. For a run that fails with an exception, the line on standard
    error reads back as the JSON object whose [error] member is the
    message of the exception exactly when the message has no double
    quote, no backslash and no control character; any other message
    gives a line that is no such object or holds another message. *)
Theorem error_report_reads_back E prog v rest w e :
  fst (transcribe_video E v (hd (py "base") rest) w) = Raised e ->
  exists line,
    stderr (snd (main E (prog :: v :: rest) w)) = stderr w ++ line ++ [0x0A] /\
    (loads_error line = Some (str_exn E e) <-> Forall plain (str_exn E e)).
Proof.
  intros He. exists (error_line E e).
  destruct (main_reports_exception E prog v rest w e He) as (_ & _ & Hs).
  split; [exact Hs | apply error_line_reads_back].
Qed.

Lemma error_report_reads_back_witness :
  fst (transcribe_video env_model_fails (py "clip.mp4") (py "huge") world0)
  = Raised (Exception (py "Invalid model size 'huge'")) /\
  exists line,
    stderr (snd (main env_model_fails
                   [py "transcribe.py"; py "clip.mp4"; py "huge"] world0))
    = [] ++ line ++ [0x0A] /\
    (loads_error line = Some (py "Invalid model size 'huge'") <->
     Forall plain (py "Invalid model size 'huge'")).
Proof.
  split; [reflexivity|].
  exact (error_report_reads_back env_model_fails (py "transcribe.py")
           (py "clip.mp4") [py "huge"] world0
           (Exception (py "Invalid model size 'huge'")) eq_refl).
Defined.

(** ** Reading the strings of the result line back *)

Lemma hexval_hexdigit d : d < 16 -> hexval (hexdigit d) = Some d.
Proof.
  intros Hd. unfold hexdigit, hexval.
  destruct (d <? 10) eqn:H10.
  - apply N.ltb_lt in H10.
    replace ((0x30 <=? 0x30 + d) && (0x30 + d <=? 0x39)) with true.
    + f_equal. lia.
    + symmetry. apply andb_true_iff. split; apply N.leb_le; lia.
  - apply N.ltb_ge in H10.
    replace ((0x30 <=? 0x57 + d) && (0x57 + d <=? 0x39)) with false.
    + replace ((0x61 <=? 0x57 + d) && (0x57 + d <=? 0x66)) with true.
      * f_equal. lia.
      * symmetry. apply andb_true_iff. split; apply N.leb_le; lia.
    + symmetry. apply andb_false_iff. right. apply N.leb_gt. lia.
Qed.

Lemma nibble_lt n : N.land n 0xF < 16.
Proof.
  change 0xF with (N.ones 4). rewrite N.land_ones.
  apply N.mod_lt. discriminate.
Qed.

(** The four digits of [hex 4 n] stand for [n]. *)
Lemma hex4_value n :
  n < 0x10000 ->
  16 * (16 * (16 * (16 * 0 + N.land (N.shiftr (N.shiftr (N.shiftr n 4) 4) 4) 0xF)
              + N.land (N.shiftr (N.shiftr n 4) 4) 0xF)
        + N.land (N.shiftr n 4) 0xF)
  + N.land n 0xF = n.
Proof.
  intros Hn. change 0xF with (N.ones 4).
  rewrite !N.land_ones, !N.shiftr_div_pow2. change (2 ^ 4) with 16.
  pose proof (N.div_mod n 16 ltac:(discriminate)) as H0.
  pose proof (N.div_mod (n / 16) 16 ltac:(discriminate)) as H1.
  pose proof (N.div_mod (n / 16 / 16) 16 ltac:(discriminate)) as H2.
  pose proof (N.div_mod (n / 16 / 16 / 16) 16 ltac:(discriminate)) as H3.
  pose proof (N.mod_lt n 16 ltac:(discriminate)).
  pose proof (N.mod_lt (n / 16) 16 ltac:(discriminate)).
  pose proof (N.mod_lt (n / 16 / 16) 16 ltac:(discriminate)).
  pose proof (N.mod_lt (n / 16 / 16 / 16) 16 ltac:(discriminate)).
  set (q1 := n / 16) in *. set (r0 := n mod 16) in *.
  set (q2 := q1 / 16) in *. set (r1 := q1 mod 16) in *.
  set (q3 := q2 / 16) in *. set (r2 := q2 mod 16) in *.
  set (q4 := q3 / 16) in *. set (r3 := q3 mod 16) in *.
  clearbody q1 r0 q2 r1 q3 r2 q4 r3. lia.
Qed.

(** Scanning the four digits written for [n]. *)
Lemma scanstring_hex4 n pend acc rest :
  n < 0x10000 ->
  scanstring (SHex 4 0) pend acc (hex 4 n ++ rest)
  = match pend with
    | Some hi =>
        if is_low n then
          scanstring SNormal None (acc ++ [combine_surrogates hi n]) rest
        else if is_high n then scanstring SNormal (Some n) (acc ++ [hi]) rest
        else scanstring SNormal None (acc ++ [hi; n]) rest
    | None =>
        if is_high n then scanstring SNormal (Some n) acc rest
        else scanstring SNormal None (acc ++ [n]) rest
    end.
Proof.
  intros Hn. cbn [hex app scanstring].
  rewrite !hexval_hexdigit by apply nibble_lt.
  rewrite (hex4_value n Hn). reflexivity.
Qed.

Lemma lor_shiftl_low k x :
  x < 1024 -> N.lor (N.shiftl k 10) x = k * 1024 + x.
Proof.
  intros Hx.
  assert (Hland : N.land (N.shiftl k 10) x = 0).
  { apply N.bits_inj_0. intros i. rewrite N.land_spec.
    destruct (N.lt_ge_cases i 10) as [Hi|Hi].
    - rewrite N.shiftl_spec_low by exact Hi. reflexivity.
    - rewrite <- (N.mod_small x (2 ^ 10)) by exact Hx.
      rewrite N.mod_pow2_bits_high by exact Hi. apply andb_false_r. }
  rewrite <- N.lxor_lor by exact Hland.
  rewrite <- N.add_nocarry_lxor by exact Hland.
  rewrite N.shiftl_mul_pow2. reflexivity.
Qed.

(** The two halves written for a code point above U+FFFF are a high and
    a low surrogate that combine to it. *)
Lemma surrogate_halves c :
  0x10000 <= c -> c <= 0x10FFFF ->
  let n := c - 0x10000 in
  let s1 := N.lor 0xD800 (N.land (N.shiftr n 10) 0x3FF) in
  let s2 := N.lor 0xDC00 (N.land n 0x3FF) in
  s1 < 0x10000 /\ s2 < 0x10000 /\
  is_high s1 = true /\ is_low s2 = true /\
  combine_surrogates s1 s2 = c.
Proof.
  intros Hlo Hhi n s1 s2.
  assert (Hn : n < 1024 * 1024) by (unfold n; lia).
  set (x1 := N.land (N.shiftr n 10) 0x3FF) in *.
  set (x0 := N.land n 0x3FF) in *.
  assert (Hx0 : x0 = n mod 1024).
  { unfold x0. change 0x3FF with (N.ones 10). rewrite N.land_ones. reflexivity. }
  assert (Hx1 : x1 = n / 1024).
  { unfold x1. change 0x3FF with (N.ones 10).
    rewrite N.land_ones, N.shiftr_div_pow2. change (2 ^ 10) with 1024.
    apply N.mod_small. apply N.Div0.div_lt_upper_bound. exact Hn. }
  pose proof (N.div_mod n 1024 ltac:(discriminate)) as Hdm.
  pose proof (N.mod_lt n 1024 ltac:(discriminate)) as Hm.
  assert (Hq : n / 1024 < 1024)
    by (apply N.Div0.div_lt_upper_bound; exact Hn).
  assert (Hs1 : s1 = 0xD800 + x1).
  { unfold s1. change 0xD800 with (N.shiftl 54 10).
    rewrite lor_shiftl_low by (rewrite Hx1; exact Hq). reflexivity. }
  assert (Hs2 : s2 = 0xDC00 + x0).
  { unfold s2. change 0xDC00 with (N.shiftl 55 10).
    rewrite lor_shiftl_low by (rewrite Hx0; exact Hm). reflexivity. }
  rewrite Hx0 in Hs2. rewrite Hx1 in Hs1.
  split; [lia|]. split; [lia|].
  split; [unfold is_high; apply andb_true_iff; split; apply N.leb_le; lia|].
  split; [unfold is_low; apply andb_true_iff; split; apply N.leb_le; lia|].
  unfold combine_surrogates. rewrite Hs1, Hs2.
  replace (0xD800 + n / 1024 - 0xD800) with (n / 1024) by lia.
  replace (0xDC00 + n mod 1024 - 0xDC00) with (n mod 1024) by lia.
  rewrite lor_shiftl_low by exact Hm. unfold n in *. lia.
Qed.

(** One character of a string, written by the encoder and read by the
    scanner. *)
Lemma scanstring_json_escape c acc rest :
  scalar c ->
  scanstring SNormal None acc (json_escape c ++ rest)
  = scanstring SNormal None (acc ++ [c]) rest.
Proof.
  intros Hc. unfold json_escape.
  destruct (c =? 0x22) eqn:H22; [apply N.eqb_eq in H22; subst; reflexivity|].
  destruct (c =? 0x5C) eqn:H5C; [apply N.eqb_eq in H5C; subst; reflexivity|].
  destruct (c =? 0x0A) eqn:H0A; [apply N.eqb_eq in H0A; subst; reflexivity|].
  destruct (c =? 0x0D) eqn:H0D; [apply N.eqb_eq in H0D; subst; reflexivity|].
  destruct (c =? 0x09) eqn:H09; [apply N.eqb_eq in H09; subst; reflexivity|].
  destruct (c =? 0x08) eqn:H08; [apply N.eqb_eq in H08; subst; reflexivity|].
  destruct (c =? 0x0C) eqn:H0C; [apply N.eqb_eq in H0C; subst; reflexivity|].
  destruct ((0x20 <=? c) && (c <=? 0x7E)) eqn:Hpr.
  { apply andb_true_iff in Hpr as [Hlo%N.leb_le Hhi%N.leb_le].
    cbn [app scanstring]. rewrite H22, H5C.
    destruct (c <? 0x20) eqn:Hlt; [apply N.ltb_lt in Hlt; lia | reflexivity]. }
  destruct (c <? 0x10000) eqn:Hbmp.
  { apply N.ltb_lt in Hbmp.
    change (([0x5C; 0x75] ++ hex 4 c) ++ rest)
      with (0x5C :: 0x75 :: hex 4 c ++ rest).
    cbn [scanstring]. change (0x5C =? 0x22) with false.
    change (0x5C =? 0x5C) with true. change (0x75 =? 0x75) with true.
    cbn iota. rewrite (scanstring_hex4 c None acc rest Hbmp).
    replace (is_high c) with false; [reflexivity|].
    symmetry. unfold is_high. destruct Hc as [Hc|[Hc _]].
    - apply andb_false_iff. left. apply N.leb_gt. exact Hc.
    - apply andb_false_iff. right. apply N.leb_gt. lia. }
  apply N.ltb_ge in Hbmp.
  assert (Hmax : c <= 0x10FFFF) by (destruct Hc as [Hc|[_ Hc]]; lia).
  destruct (surrogate_halves c Hbmp Hmax) as (H1 & H2 & Hhigh & Hlow & Hcomb).
  cbv zeta in *.
  set (s1 := N.lor 0xD800 (N.land (N.shiftr (c - 0x10000) 10) 0x3FF)) in *.
  set (s2 := N.lor 0xDC00 (N.land (c - 0x10000) 0x3FF)) in *.
  change (([0x5C; 0x75] ++ hex 4 s1 ++ [0x5C; 0x75] ++ hex 4 s2) ++ rest)
    with (([0x5C; 0x75] ++ hex 4 s1 ++ ([0x5C; 0x75] ++ hex 4 s2)) ++ rest).
  rewrite <- !app_assoc.
  change ([0x5C; 0x75] ++ hex 4 s1 ++ [0x5C; 0x75] ++ hex 4 s2 ++ rest)
    with (0x5C :: 0x75 :: hex 4 s1 ++ (0x5C :: 0x75 :: hex 4 s2 ++ rest)).
  cbn [scanstring]. change (0x5C =? 0x22) with false.
  change (0x5C =? 0x5C) with true. change (0x75 =? 0x75) with true.
  cbn iota. rewrite (scanstring_hex4 s1 None acc _ H1), Hhigh.
  cbn [scanstring]. change (0x5C =? 0x22) with false.
  change (0x5C =? 0x5C) with true. change (0x75 =? 0x75) with true.
  cbn iota. rewrite (scanstring_hex4 s2 (Some s1) acc rest H2), Hlow, Hcomb.
  reflexivity.
Qed.

Lemma scanstring_encoded s : forall acc rest,
  Forall scalar s ->
  scanstring SNormal None acc (concat (map json_escape s) ++ rest)
  = scanstring SNormal None (acc ++ s) rest.
Proof.
  induction s as [|c s IH]; intros acc rest Hs; simpl.
  - rewrite app_nil_r. reflexivity.
  - apply Forall_cons in Hs as [Hc Hs].
    rewrite <- app_assoc, (scanstring_json_escape c acc _ Hc), (IH _ _ Hs).
    rewrite <- app_assoc. reflexivity.
Qed.

(** A string literal written by the encoder reads back as the string,
    whatever follows it. *)
Lemma json_string_encoded s rest :
  Forall scalar s ->
  json_string (py_encode_basestring_ascii s ++ rest) = Some (s, rest).
Proof.
  intros Hs. unfold py_encode_basestring_ascii, json_string.
  rewrite <- !app_assoc. cbn [app expect mbind option_bind].
  rewrite N.eqb_refl. simpl.
  rewrite (scanstring_encoded s [] _ Hs). simpl. reflexivity.
Qed.

(** X12. In the line a successful run prints, the values of
    [transcript] and [language] are string literals that read back as
    exactly the joined transcript and the language, whatever characters
    they hold (quotes, backslashes, line breaks, characters outside
    ASCII), as long as these are Unicode scalar values. *)
Theorem result_strings_read_back E prog v rest w p segs info :
  pipeline_succeeds E v (hd (py "base") rest) w p segs info ->
  Forall scalar (join (py " ") (map strip (map text segs))) ->
  Forall scalar (language info) ->
  exists after_transcript after_language,
    stdout (snd (main E (prog :: v :: rest) w))
    = stdout w ++ quoted "{`transcript`: " ++ after_transcript /\
    (exists tail,
       json_string after_transcript
       = Some (join (py " ") (map strip (map text segs)), tail) /\
       tail = quoted ", `language`: " ++ after_language) /\
    (exists tail,
       json_string after_language = Some (language info, tail)).
Proof.
  intros H Ht Hl. rewrite main_run_pipeline.
  pose proof (transcribe_video_success _ _ _ _ _ _ _ H) as Hok.
  rewrite (run_pipeline_ok _ _ _ _ _ Hok). cbn [snd stdout write_stdout].
  destruct (transcribe_video_streams E v (hd (py "base") rest) w) as [Ho _].
  rewrite Ho, json_dumps_result. rewrite map_map in Ht.
  set (t := join (py " ") (map (fun s => strip (text s)) segs)) in *.
  set (al := py_encode_basestring_ascii (language info)
             ++ quoted ", `language_probability`: "
             ++ floatstr E (language_probability info)
             ++ quoted ", `duration`: "
             ++ floatstr E (duration info) ++ py "}" ++ [0x0A]).
  exists (py_encode_basestring_ascii t ++ quoted ", `language`: " ++ al), al.
  split; [|split].
  - unfold al. f_equal. repeat (rewrite <- app_assoc; f_equal).
  - eexists. split; [|reflexivity].
    rewrite map_map. fold t. apply json_string_encoded. exact Ht.
  - eexists. unfold al. apply json_string_encoded. exact Hl.
Qed.

Lemma scalar_forallb (l : pystr) :
  forallb (fun c => (c <? 0xD800) || ((0xE000 <=? c) && (c <=? 0x10FFFF))) l
  = true ->
  Forall scalar l.
Proof.
  intros H. apply Forall_forall. intros c Hc.
  rewrite forallb_forall in H. apply list_elem_of_In in Hc.
  specialize (H c Hc). apply orb_true_iff in H as [H|H].
  - left. apply N.ltb_lt. exact H.
  - right. apply andb_true_iff in H as [H1 H2].
    split; apply N.leb_le; assumption.
Defined.

Lemma env_unicode_succeeds v m :
  pipeline_succeeds env_unicode v m world0 sample_tmp unicode_segments
    sample_info.
Proof.
  split; [reflexivity|].
  exists [], [], ({[sample_tmp]} ∪ ({[sample_tmp]} ∪ ∅)),
    ({[sample_tmp]} ∪ ({[sample_tmp]} ∪ ∅)),
    ({[sample_tmp]} ∪ ({[sample_tmp]} ∪ ∅)).
  repeat split.
Defined.

(** The line printed for the sample with quotes and characters outside
    ASCII: every one of them is escaped. *)
Example unicode_line :
  stdout (snd (main env_unicode [py "transcribe.py"; py "clip.mp4"] world0))
  = quoted "{`transcript`: `\`Hi\` \u00e9 \ud83d\ude00`, `language`: `en`, `language_probability`: 0.5, `duration`: 2.5}"
    ++ [0x0A].
Proof. reflexivity. Qed.

Lemma result_strings_read_back_witness :
  pipeline_succeeds env_unicode (py "clip.mp4") (py "base") world0 sample_tmp
    unicode_segments sample_info /\
  Forall scalar (join (py " ") (map strip (map text unicode_segments))) /\
  Forall scalar (language sample_info) /\
  exists after_transcript after_language,
    stdout (snd (main env_unicode [py "transcribe.py"; py "clip.mp4"] world0))
    = [] ++ quoted "{`transcript`: " ++ after_transcript /\
    (exists tail,
       json_string after_transcript
       = Some ([0x22] ++ py "Hi" ++ [0x22; 0x20; 0xE9; 0x20; 0x1F600], tail) /\
       tail = quoted ", `language`: " ++ after_language) /\
    (exists tail, json_string after_language = Some (py "en", tail)).
Proof.
  split; [apply env_unicode_succeeds|].
  assert (Ht : Forall scalar
                 (join (py " ") (map strip (map text unicode_segments))))
    by (apply scalar_forallb; reflexivity).
  assert (Hl : Forall scalar (language sample_info))
    by (apply scalar_forallb; reflexivity).
  split; [exact Ht|]. split; [exact Hl|].
  exact (result_strings_read_back env_unicode (py "transcribe.py")
           (py "clip.mp4") [] world0 sample_tmp unicode_segments sample_info
           (env_unicode_succeeds _ _) Ht Hl).
Defined.
